(** * appfinal.py: predictive monitoring dashboard

    A shallow embedding of the script [appfinal.py] and the properties its
    specification states about it.

    Numbers.  The script computes with IEEE doubles through pandas and
    scikit-learn.  The page is modelled over real numbers ([R]): a scalar
    that pandas may return as NaN (the mean of an empty column, the standard
    deviation of a column with fewer than two rows) is an [option R] with
    [None] for NaN, NaN-propagating arithmetic and comparisons that are false
    on NaN.  The module [Binary64] models the arithmetic of the anomaly test
    (lines 91-95) a second time, in binary64 with round-to-nearest-even;
    the statements about the test that depend on rounding are made there.

    Effects.  The script is a straight line of Streamlit calls.  It is
    embedded in a writer monad over the list of rendered elements, with three
    outcomes: the script ran to its end, an exception is propagating, or
    [st.stop()] ended the run. *)

From Stdlib Require Import Reals Lra Lia ZArith Ascii String SpecFloat.
From stdpp Require Import base option list gmap strings.

Open Scope R_scope.

(* ================================================================== *)
(** * Numeric kernels: pandas reductions and scikit-learn's fit       *)
(* ================================================================== *)

#[global] Instance Rlt_decision : RelDecision Rlt := Rlt_dec.
#[global] Instance Req_decision : EqDecision R := Req_dec_T.

(** A double that may be NaN. *)
Abbreviation float := (option R) (only parsing).
Abbreviation NaN := (@None R) (only parsing).

Module Float.

Definition lift2 (f : R → R → R) (a b : float) : float :=
  match a, b with
  | Some x, Some y => Some (f x y)
  | _, _ => NaN
  end.

Definition add : float → float → float := lift2 Rplus.
Definition sub : float → float → float := lift2 Rminus.
Definition mul : float → float → float := lift2 Rmult.

(** [a < b] and [a > b] on doubles: false as soon as one side is NaN. *)
Definition ltb (a b : float) : bool :=
  match a, b with
  | Some x, Some y => bool_decide (x < y)
  | _, _ => false
  end.

Definition gtb (a b : float) : bool := ltb b a.

End Float.

Definition Rsum (xs : list R) : R := foldr Rplus 0 xs.

(** [Series.mean()]: NaN on an empty column. *)
Definition mean (xs : list R) : float :=
  match xs with
  | [] => NaN
  | _ => Some (Rsum xs / INR (length xs))
  end.

(** Sum of squared deviations from [m]. *)
Definition sqdev (m : R) (xs : list R) : R :=
  Rsum (map (λ x, (x - m) * (x - m)) xs).

(** [Series.std()]: the sample standard deviation (ddof = 1), NaN when the
    column has fewer than two rows. *)
Definition std (xs : list R) : float :=
  match xs with
  | [] | [_] => NaN
  | _ => m ← mean xs; Some (sqrt (sqdev m xs / (INR (length xs) - 1)))
  end.

(** [Series.min()] and [Series.max()]: NaN on an empty column. *)
Definition col_min (xs : list R) : float :=
  match xs with
  | [] => NaN
  | x :: xs' => Some (foldr Rmin x xs')
  end.

Definition col_max (xs : list R) : float :=
  match xs with
  | [] => NaN
  | x :: xs' => Some (foldr Rmax x xs')
  end.

(** [sklearn.linear_model.LinearRegression] with one feature: the data are
    centred, the slope is the minimum-norm least-squares solution on the
    centred data (0 when the feature is constant) and the intercept puts the
    line through the point of means. *)
Module LinearRegression.

Record t := Model { coef_ : R; intercept_ : R }.

Definition centre (m : R) (xs : list R) : list R := map (λ x, x - m) xs.

Definition dot (xs ys : list R) : R := Rsum (zip_with Rmult xs ys).

(** [fit] refuses an empty sample and samples of different lengths. *)
Definition fit (X y : list R) : option t :=
  if decide (length X = length y) then
    xbar ← mean X;
    ybar ← mean y;
    let Xc := centre xbar X in
    let yc := centre ybar y in
    let sxx := dot Xc Xc in
    let coef := if decide (sxx = 0) then 0 else dot Xc yc / sxx in
    Some (Model coef (ybar - xbar * coef))
  else None.

Definition predict (m : t) (x : R) : R := x * coef_ m + intercept_ m.

(** Residual sum of squares of the line [a * x + b] on the sample. *)
Definition rss (a b : R) (X y : list R) : R :=
  Rsum (zip_with (λ x v, (v - (a * x + b)) * (v - (a * x + b))) X y).

End LinearRegression.

(** [range(n)] as a column of reals: 0, 1, ..., n-1. *)
Definition range (n : nat) : list R := map INR (seq 0 n).

Close Scope R_scope.

(* ================================================================== *)
(** * The anomaly test in binary64 (lines 91-95)                      *)
(* ================================================================== *)

(** The doubles of the script are the floating-point numbers of [SpecFloat]
    with a mantissa of 53 bits; every operation rounds to nearest, ties to
    even.  A missing reading is NaN. *)
Module Binary64.

Abbreviation t := spec_float (only parsing).

Definition prec : Z := 53.
Definition emax : Z := 1024.

Definition nan : t := S754_nan.
Definition zero : t := S754_zero false.

Definition add : t → t → t := SFadd prec emax.
Definition sub : t → t → t := SFsub prec emax.
Definition mul : t → t → t := SFmul prec emax.
Definition div : t → t → t := SFdiv prec emax.
Definition sqrt : t → t := SFsqrt prec emax.

(** [a < b] and [a > b]: false as soon as one side is NaN. *)
Definition ltb : t → t → bool := SFltb.
Definition gtb (a b : t) : bool := SFltb b a.

(** The double of an integer, and of a number of rows. *)
Definition of_Z (z : Z) : t := binary_normalize prec emax z 0 false.
Definition of_nat (n : nat) : t := of_Z (Z.of_nat n).

(** The double that the decimal literal [num / 10^k] denotes.  For an
    integer below 2^53 and [k] up to 22 both operands are exact and the
    quotient is rounded once, which gives the nearest double. *)
Definition dec (num : Z) (k : nat) : t := div (of_Z num) (of_Z (10 ^ Z.of_nat k)).


Definition isna (x : t) : bool :=
  match x with
  | S754_nan => true
  | _ => false
  end.

(** pandas reduces with [skipna=True]: a missing reading counts as 0 in a
    sum and is left out of the count. *)
Definition fillna (xs : list t) : list t := map (λ v, if isna v then zero else v) xs.

Definition count (xs : list t) : nat := length (filter (λ v, isna v = false) xs).

(** [ndarray.sum()], adding from left to right: the order of numpy for fewer
    than eight addends (longer arrays are added in blocks). *)
Definition sum (xs : list t) : t := foldl add zero xs.

(** [Series.mean()]: the sum over the count, NaN when no reading is left. *)
Definition mean (xs : list t) : t :=
  match count xs with
  | O => nan
  | S _ => div (sum (fillna xs)) (of_nat (count xs))
  end.

(** The squared deviations from [avg], 0 at a missing reading. *)
Definition sqr (avg : t) (xs : list t) : list t :=
  map (λ v, if isna v then zero else mul (sub avg v) (sub avg v)) xs.

(** [Series.std()]: the two-pass sample standard deviation (ddof = 1), NaN
    when fewer than two readings are left. *)
Definition std (xs : list t) : t :=
  match count xs with
  | O | 1%nat => nan
  | S d =>
      let avg := div (sum (fillna xs)) (of_nat (count xs)) in
      sqrt (div (sum (sqr avg xs)) (of_nat d))
  end.

(** Lines 93-95, for the mean and the deviation that pandas returned. *)
Definition flags (media std : t) (col : list t) : list bool :=
  let lim_inf := sub media (mul (of_Z 2) std) in
  let lim_sup := add media (mul (of_Z 2) std) in
  map (λ v, ltb v lim_inf || gtb v lim_sup) col.

(** Lines 91-95. *)
Definition anomalo (col : list t) : list bool := flags (mean col) (std col) col.



End Binary64.

(* ================================================================== *)
(** * Data model: timestamps, columns and dataframes                  *)
(* ================================================================== *)

Record Timestamp := Date { year : nat; month : nat; day : nat }.

#[global] Instance Timestamp_eq_dec : EqDecision Timestamp.
Proof. solve_decision. Defined.

Definition leap (y : nat) : bool :=
  (y mod 4 =? 0) && (negb (y mod 100 =? 0) || (y mod 400 =? 0)).

Definition days_in_month (y m : nat) : nat :=
  match m with
  | 2 => if leap y then 29 else 28
  | 4 | 6 | 9 | 11 => 30
  | _ => 31
  end.

Definition next_day (d : Timestamp) : Timestamp :=
  if day d <? days_in_month (year d) (month d) then Date (year d) (month d) (S (day d))
  else if month d <? 12 then Date (year d) (S (month d)) 1
  else Date (S (year d)) 1 1.

(** [pd.date_range(start, periods=n, freq="D")]. *)
Fixpoint date_range (start : Timestamp) (periods : nat) : list Timestamp :=
  match periods with
  | O => []
  | S p => start :: date_range (next_day start) p
  end.

(** A cell and a column of a dataframe.  Numeric columns hold readings
    without missing values. *)
Inductive Cell :=
| CNum (x : R)
| CTime (t : Timestamp)
| CBool (b : bool)
| CStr (s : string).

Inductive Column :=
| NumCol (xs : list R)
| TimeCol (ts : list Timestamp)
| BoolCol (bs : list bool)
| StrCol (ss : list string).

Definition col_length (c : Column) : nat :=
  match c with
  | NumCol xs => length xs
  | TimeCol ts => length ts
  | BoolCol bs => length bs
  | StrCol ss => length ss
  end.

Definition cell_at (c : Column) (i : nat) : option Cell :=
  match c with
  | NumCol xs => CNum <$> xs !! i
  | TimeCol ts => CTime <$> ts !! i
  | BoolCol bs => CBool <$> bs !! i
  | StrCol ss => CStr <$> ss !! i
  end.

(** A dataframe: the length of its index and its columns by label.  Column
    labels are unique, as they are in every frame the script builds or
    receives from the pivoted query. *)
Record DataFrame := Frame { nrows : nat; columns : gmap string Column }.

(** [len(df)]. *)
Definition len (df : DataFrame) : nat := nrows df.

(** [df[k] = c]. *)
Definition setitem (df : DataFrame) (k : string) (c : Column) : DataFrame :=
  Frame (nrows df) (<[k := c]> (columns df)).

(** [df.rename(columns={old: new}, inplace=True)]: a label that is absent is
    ignored. *)
Definition rename (df : DataFrame) (old new : string) : DataFrame :=
  match columns df !! old with
  | Some c => Frame (nrows df) (<[new := c]> (delete old (columns df)))
  | None => df
  end.

(* ================================================================== *)
(** * Exceptions, rendered elements and the script monad              *)
(* ================================================================== *)

Local Open Scope string_scope.
Local Open Scope list_scope.

Definition dq : string := String (ascii_of_nat 34) EmptyString.
Definition sq : string := String (ascii_of_nat 39) EmptyString.
Definition nl : string := String (ascii_of_nat 10) EmptyString.

Inductive Exc := Exception (cls : string) (msg : string).

(** [f"{e}"]: the message of the exception. *)
Definition str (e : Exc) : string := let 'Exception _ m := e in m.

Definition KeyError (k : string) : Exc := Exception "KeyError" (sq +:+ k +:+ sq).
Definition NameError (n : string) : Exc :=
  Exception "NameError" ("name " +:+ sq +:+ n +:+ sq +:+ " is not defined").
Definition TypeError (m : string) : Exc := Exception "TypeError" m.
Definition IndexError (m : string) : Exc := Exception "IndexError" m.
Definition ValueError (m : string) : Exc := Exception "ValueError" m.

(** One entry of the list [anomalias]. *)
Record Anomalia := MkAnomalia {
  Fecha : Cell;
  VariableName : string;
  Valor : Cell;
  Descripcion : string
}.

(** What a run leaves behind, in order: the elements it renders and the
    query it sends.  Numbers that the script formats to two decimals are kept
    as numbers. *)
Inductive Event :=
| StTitle (s : string)
| StWrite (s : string)
| StSuccess (s : string)
| StError (s : string)
| StWarning (s : string)
| StSubheader (s : string)
| StDataframe (df : DataFrame)
| StMetric (slot : nat) (label : string) (prom minimo maximo : float)
| StTable (rows : list Anomalia)
| StWritePred (label : string) (pred : R)
| StMarkdown (s : string)
| StCaption (s : string)
| QuerySent (q : string).

Inductive Outcome (A : Type) :=
| Returned (a : A)
| Raised (e : Exc)
| Stopped.
Arguments Returned {A} a.
Arguments Raised {A} e.
Arguments Stopped {A}.

Definition Script (A : Type) : Type := list Event * Outcome A.

#[global] Instance Script_ret : MRet Script := λ A a, ([], Returned a).

#[global] Instance Script_bind : MBind Script := λ A B k m,
  match m.2 with
  | Returned a => (m.1 ++ (k a).1, (k a).2)
  | Raised e => (m.1, Raised e)
  | Stopped => (m.1, Stopped)
  end.

Definition emit (ev : Event) : Script unit := ([ev], Returned tt).
Definition raise {A} (e : Exc) : Script A := ([], Raised e).

(** [st.stop()]: ends the run; it is not an [Exception], so no handler of
    the script catches it. *)
Definition st_stop {A} : Script A := ([], Stopped).

(** [try: body / except Exception as e: handler e]. *)
Definition try_except {A} (body : Script A) (handler : Exc → Script A) : Script A :=
  match body.2 with
  | Raised e => (body.1 ++ (handler e).1, (handler e).2)
  | _ => body
  end.

(** The result of a call into a library: a value or a raised exception. *)
Definition call {A} (r : Exc + A) : Script A :=
  match r with
  | inl e => raise e
  | inr a => mret a
  end.

(** Reading a name of the script that may not have been bound. *)
Definition name_lookup {A} (name : string) (binding : option A) : Script A :=
  match binding with
  | Some a => mret a
  | None => raise (NameError name)
  end.

(** [for x in xs: s = body x s]. *)
Fixpoint for_ {A S} (xs : list A) (body : A → S → Script S) (s : S) : Script S :=
  match xs with
  | [] => mret s
  | x :: xs' => s' ← body x s; for_ xs' body s'
  end.

Definition log {A} (m : Script A) : list Event := m.1.
Definition outcome {A} (m : Script A) : Outcome A := m.2.

(* ================================================================== *)
(** * The script                                                      *)
(* ================================================================== *)

(** The handle the script keeps after connecting: [query_api.query_data_frame]. *)
Abbreviation QueryApi := (string → Exc + DataFrame)%type (only parsing).

(** What the run depends on outside the script: the environment after
    [load_dotenv()] and the database client. *)
Record World := {
  getenv : string → option string;
  InfluxDBClient : option string → option string → option string → Exc + QueryApi
}.

(** How an f-string renders a value read with [os.getenv]. *)
Definition format_value (v : option string) : string := default "None" v.

Definition upper (c : ascii) : ascii :=
  let n := nat_of_ascii c in
  if ((97 <=? n) && (n <=? 122))%nat then ascii_of_nat (n - 32) else c.

Definition lower (c : ascii) : ascii :=
  let n := nat_of_ascii c in
  if ((65 <=? n) && (n <=? 90))%nat then ascii_of_nat (n + 32) else c.

Fixpoint map_string (f : ascii → ascii) (s : string) : string :=
  match s with
  | EmptyString => EmptyString
  | String c r => String (f c) (map_string f r)
  end.

(** [str.capitalize()] on the ASCII labels the script uses. *)
Definition capitalize (s : string) : string :=
  match s with
  | EmptyString => EmptyString
  | String c r => String (upper c) (map_string lower r)
  end.

Definition variables : list string :=
  ["temperatura"; "humedad"; "vibracion"; "corriente"; "voltaje"].

(** ** Connection (lines 28-33) *)

(** Returns the binding of the name [query_api]: it stays unbound when the
    constructor raises, and the handler only reports the error. *)
Definition conexion (w : World) (url token org : option string)
  : Script (option QueryApi) :=
  try_except
    (query_api ← call (InfluxDBClient w url token org);
     emit (StSuccess "✅ Conexión exitosa a InfluxDB");;
     mret (Some query_api))
    (λ e,
     emit (StError ("❌ Error al conectar con InfluxDB: " +:+ str e));;
     mret None).

(** ** Query (lines 38-66) *)

Definition query (bucket : option string) : string :=
  nl +:+
  "from(bucket: " +:+ dq +:+ format_value bucket +:+ dq +:+ ")" +:+ nl +:+
  "  |> range(start: -7d)" +:+ nl +:+
  "  |> filter(fn: (r) => r[" +:+ dq +:+ "_measurement" +:+ dq +:+ "] == "
     +:+ dq +:+ "sensores" +:+ dq +:+ ")" +:+ nl +:+
  "  |> filter(fn: (r) => r[" +:+ dq +:+ "_field" +:+ dq
     +:+ "] =~ /temperatura|humedad|vibracion|corriente|voltaje/)" +:+ nl +:+
  "  |> pivot(rowKey:[" +:+ dq +:+ "_time" +:+ dq +:+ "], columnKey: ["
     +:+ dq +:+ "_field" +:+ dq +:+ "], valueColumn: " +:+ dq +:+ "_value" +:+ dq
     +:+ ")" +:+ nl +:+
  "  |> keep(columns: [" +:+ dq +:+ "_time" +:+ dq +:+ ", "
     +:+ dq +:+ "temperatura" +:+ dq +:+ ", "
     +:+ dq +:+ "humedad" +:+ dq +:+ ", "
     +:+ dq +:+ "vibracion" +:+ dq +:+ ", "
     +:+ dq +:+ "corriente" +:+ dq +:+ ", "
     +:+ dq +:+ "voltaje" +:+ dq +:+ "])" +:+ nl.

Definition fechas : list Timestamp := date_range (Date 2025 10 1) 10.

(** The sample data of lines 52-61. *)
Definition datos_simulados : DataFrame :=
  Frame 10 (list_to_map [
    ("_time", TimeCol fechas);
    ("temperatura", NumCol [28; 29; 30; 32; 33; 31; 30; 29; 28; 27]%R);
    ("humedad", NumCol [55; 58; 60; 62; 59; 61; 63; 65; 60; 58]%R);
    ("vibracion", NumCol [1.2; 1.3; 1.5; 1.7; 1.8; 1.6; 1.5; 1.4; 1.3; 1.2]%R);
    ("corriente", NumCol [5.5; 5.8; 6.0; 6.2; 6.5; 6.1; 5.9; 5.8; 5.6; 5.7]%R);
    ("voltaje", NumCol [230; 231; 229; 228; 232; 233; 230; 229; 231; 230]%R)
  ]).

Definition consulta (query_api : option QueryApi) (query : string)
  : Script DataFrame :=
  try_except
    (api ← name_lookup "query_api" query_api;
     emit (QuerySent query);;
     tables ← call (api query);
     if decide (len tables = 0) then
       emit (StWarning
         "⚠️ No se encontraron datos en InfluxDB. Se usarán datos simulados.");;
       mret datos_simulados
     else
       mret tables)
    (λ e,
     emit (StError ("❌ Error al consultar datos: " +:+ str e));;
     st_stop).

(** ** Column access *)

(** [df[k]]. *)
Definition getitem (df : DataFrame) (k : string) : Script Column :=
  match columns df !! k with
  | Some c => mret c
  | None => raise (KeyError k)
  end.

(** The arithmetic of the script is modelled on numeric columns; any other
    column under one of the five labels ends the run with a [TypeError], as
    text and timestamps do in pandas.  (pandas computes on a boolean column
    as on 0 and 1; a frame with a boolean column under a sensor label is
    outside the model.) *)
Definition numeric (c : Column) : Script (list R) :=
  match c with
  | NumCol xs => mret xs
  | _ => raise (TypeError "not a numeric column")
  end.

(** [row[k]] for the row at position [i] of [df]. *)
Definition row_get (df : DataFrame) (i : nat) (k : string) : Script Cell :=
  c ← getitem df k;
  match cell_at c i with
  | Some v => mret v
  | None => raise (IndexError "row position out of range")
  end.

(** ** General statistics (lines 77-83) *)

Definition enumerate {A} (xs : list A) : list (nat * A) :=
  zip (seq 0 (length xs)) xs.

Definition estadisticas (df : DataFrame) : Script unit :=
  for_ (enumerate variables) (λ '(i, var) _,
    col ← getitem df var ≫= numeric;
    let prom := mean col in
    let minimo := col_min col in
    let maximo := col_max col in
    emit (StMetric i (capitalize var) prom minimo maximo)) tt.

(** ** Anomaly detection (lines 89-111) *)

Definition anom_label (var : string) : string := "Anómalo " +:+ var.

(** [(df[var] < lim_inf) | (df[var] > lim_sup)] with the limits of lines
    91-94, over the reals; [Binary64.anomalo] is the same test in doubles. *)
Definition anomalo (col : list R) : list bool :=
  let media := mean col in
  let std := std col in
  let lim_inf := Float.sub media (Float.mul (Some 2%R) std) in
  let lim_sup := Float.add media (Float.mul (Some 2%R) std) in
  map (λ v, Float.ltb (Some v) lim_inf || Float.gtb (Some v) lim_sup) col.

(** Positions of the rows a boolean mask selects, in index order. *)
Definition where_true (mask : list bool) : list nat :=
  omap (λ '(i, b), if b : bool then Some i else None) (enumerate mask).

(** One turn of the loop of line 99: the row at position [i] of the flagged
    rows is copied into a new entry of [anomalias]. *)
Definition registrar (df : DataFrame) (var : string) (i : nat)
    (anomalias : list Anomalia) : Script (list Anomalia) :=
  fecha ← row_get df i "Tiempo";
  valor ← row_get df i var;
  mret (anomalias ++
          [MkAnomalia fecha var valor "Valor fuera de rango normal"]).

(** One turn of the loop of line 90, on the frame and the list
    [anomalias]. *)
Definition detectar (var : string) (s : DataFrame * list Anomalia)
  : Script (DataFrame * list Anomalia) :=
  let '(df, anomalias) := s in
  col ← getitem df var ≫= numeric;
  let df := setitem df (anom_label var) (BoolCol (anomalo col)) in
  let filas_anom := where_true (anomalo col) in
  anomalias ← for_ filas_anom (registrar df var) anomalias;
  mret (df, anomalias).

Definition deteccion (df : DataFrame) : Script (DataFrame * list Anomalia) :=
  for_ variables detectar (df, []).

Definition reporte (anomalias : list Anomalia) : Script unit :=
  match anomalias with
  | _ :: _ =>
      emit (StError "🚨 Se detectaron anomalías en las lecturas");;
      emit (StTable anomalias)
  | [] => emit (StSuccess "✅ No se detectaron anomalías")
  end.

(** ** Prediction (lines 118-129) *)

Definition predecir (df : DataFrame) (var : string)
    (predicciones : list (string * R)) : Script (list (string * R)) :=
  let X := range (len df) in
  y ← getitem df var ≫= numeric;
  match LinearRegression.fit X y with
  | Some modelo =>
      let futuro := LinearRegression.predict modelo (INR (len df + 1)) in
      mret (predicciones ++ [(var, futuro)])
  | None => raise (ValueError "fit: empty or inconsistent sample")
  end.

Definition prediccion (df : DataFrame) : Script (list (string * R)) :=
  for_ variables (predecir df) [].

(** ** The page below the query (lines 68-135) *)

Definition render (df : DataFrame) : Script unit :=
  let df := rename df "_time" "Tiempo" in
  emit (StSubheader "📋 Datos obtenidos");;
  emit (StDataframe df);;
  emit (StSubheader "📈 Estadísticas Generales");;
  estadisticas df;;
  emit (StSubheader "⚠️ Detección de Anomalías");;
  '(df, anomalias) ← deteccion df;
  reporte anomalias;;
  emit (StSubheader "🔮 Predicción de Tendencias Futuras (Regresión Lineal)");;
  predicciones ← prediccion df;
  emit (StWrite "**Predicciones para la siguiente lectura:**");;
  for_ predicciones (λ '(var, pred) _,
    emit (StWritePred (capitalize var) pred)) tt;;
  emit (StMarkdown "---");;
  emit (StCaption
    "Desarrollado por Alejandro Giraldo — Sistema de monitoreo conectado a InfluxDB con análisis predictivo.").

(** ** The whole script *)

Definition intro : string :=
  nl +:+
  "Aplicación de monitoreo inteligente que obtiene datos desde InfluxDB, " +:+ nl +:+
  "analiza promedios, valores extremos, detecta anomalías y predice " +:+ nl +:+
  "tendencias futuras en variables industriales." +:+ nl.

Definition header : Script unit :=
  emit (StTitle "📊 Monitoreo Predictivo con InfluxDB");;
  emit (StWrite intro).

Definition main (w : World) : Script unit :=
  header;;
  let url := getenv w "INFLUX_URL" in
  let token := getenv w "INFLUX_TOKEN" in
  let org := getenv w "INFLUX_ORG" in
  let bucket := getenv w "INFLUX_BUCKET" in
  query_api ← conexion w url token org;
  df ← consulta query_api (query bucket);
  render df.

(* ================================================================== *)
(** * Vocabulary of the statements                                    *)
(* ================================================================== *)

(** The cell of column [k] at row position [i], if the frame has it. *)
Definition cell (df : DataFrame) (k : string) (i : nat) : option Cell :=
  c ← columns df !! k; cell_at c i.

(** Entry [a] of the anomaly report copies row [i] of [df] for [var]. *)
Definition copia (df : DataFrame) (var : string) (i : nat) (a : Anomalia) : Prop :=
  cell df "Tiempo" i = Some (Fecha a) ∧ cell df var i = Some (Valor a) ∧
  VariableName a = var ∧ Descripcion a = "Valor fuera de rango normal".

(** A frame of readings: at least one row, the five variables as numeric
    columns and a timestamp column, each with one cell per row. *)
Definition lecturas (df : DataFrame) : Prop :=
  (0 < nrows df)%nat ∧
  (∀ var, var ∈ variables →
     ∃ col, columns df !! var = Some (NumCol col) ∧ length col = nrows df) ∧
  (∃ t, columns df !! "Tiempo" = Some t ∧ col_length t = nrows df).

(** Following the specification: the line [a * x + b] is an ordinary
    least-squares line of the sample when no line has a smaller residual sum
    of squares. *)
Definition ols_line (a b : R) (X y : list R) : Prop :=
  ∀ a' b', (LinearRegression.rss a b X y <= LinearRegression.rss a' b' X y)%R.

(** The value line 124 computes from a column [y] of a frame with [n] rows. *)
Definition futuro (n : nat) (y : list R) : option R :=
  modelo ← LinearRegression.fit (range n) y;
  Some (LinearRegression.predict modelo (INR (n + 1))).

(** The numeric column under label [var], empty if the frame has none. *)
Definition num_col (df : DataFrame) (var : string) : list R :=
  match columns df !! var with
  | Some (NumCol xs) => xs
  | _ => []
  end.

(** The metric line 83 renders in slot [p.1] for variable [p.2]. *)
Definition metrica (df : DataFrame) (p : nat * string) : Event :=
  StMetric p.1 (capitalize p.2) (mean (num_col df p.2))
           (col_min (num_col df p.2)) (col_max (num_col df p.2)).

Definition metricas (df : DataFrame) : list Event :=
  metrica df <$> enumerate variables.

(** The sample data after line 68, after the anomaly loop, and what the
    page shows for it. *)
Definition tiempo_simulado : DataFrame := rename datos_simulados "_time" "Tiempo".

Definition sin_banderas : Column := BoolCol (replicate 10 false).

Definition simulados_con_banderas : DataFrame :=
  foldl (λ d var, setitem d (anom_label var) sin_banderas) tiempo_simulado variables.

Definition predicciones_simuladas : list (string * R) :=
  [("temperatura", 4712 / 165); ("humedad", 10378 / 165);
   ("vibracion", 1154 / 825); ("corriente", 4814 / 825);
   ("voltaje", 7609 / 33)]%R.

Definition pagina_simulada : list Event :=
  [StSubheader "📋 Datos obtenidos";
   StDataframe tiempo_simulado;
   StSubheader "📈 Estadísticas Generales"]
  ++ metricas tiempo_simulado ++
  [StSubheader "⚠️ Detección de Anomalías";
   StSuccess "✅ No se detectaron anomalías";
   StSubheader "🔮 Predicción de Tendencias Futuras (Regresión Lineal)";
   StWrite "**Predicciones para la siguiente lectura:**";
   StWritePred "Temperatura" (4712 / 165);
   StWritePred "Humedad" (10378 / 165);
   StWritePred "Vibracion" (1154 / 825);
   StWritePred "Corriente" (4814 / 825);
   StWritePred "Voltaje" (7609 / 33);
   StMarkdown "---";
   StCaption
     "Desarrollado por Alejandro Giraldo — Sistema de monitoreo conectado a InfluxDB con análisis predictivo."].
(** The events that record a query sent to the database. *)
Definition is_query (ev : Event) : bool :=
  match ev with
  | QuerySent _ => true
  | _ => false
  end.

(** The events that show data: the table of readings, a metric, the anomaly
    report or a prediction. *)
Definition is_data (ev : Event) : bool :=
  match ev with
  | StDataframe _ | StMetric _ _ _ _ _ | StTable _ | StWritePred _ _ => true
  | _ => false
  end.

(** The connection and the query of a run, as the script calls them. *)
Definition connect (w : World) : Exc + (string → Exc + DataFrame) :=
  InfluxDBClient w (getenv w "INFLUX_URL") (getenv w "INFLUX_TOKEN")
                 (getenv w "INFLUX_ORG").

Definition sent (w : World) : string := query (getenv w "INFLUX_BUCKET").

(** A run without configuration whose client constructor raises. *)
Definition mundo_sin_conexion : World :=
  {| getenv := λ _, None;
     InfluxDBClient := λ _ _ _, inl (Exception "ValueError" "invalid url") |}.

(** A configured run whose query raises. *)
Definition mundo_consulta_falla : World :=
  {| getenv := λ _, Some "planta";
     InfluxDBClient := λ _ _ _,
       inr (λ _, inl (Exception "ApiException" "(401) Unauthorized")) |}.

(** A configured run whose bucket holds no rows. *)
Definition mundo_vacio : World :=
  {| getenv := λ _, Some "planta";
     InfluxDBClient := λ _ _ _, inr (λ _, inr (Frame 0 ∅)) |}.
(** Following the specification of a failed connection: the sample data is
    shown and the run reaches its end. *)
Definition fallback_rendered (w : World) : Prop :=
  StDataframe tiempo_simulado ∈ log (main w) ∧ outcome (main w) = Returned tt.

Fixpoint join (sep : string) (xs : list string) : string :=
  match xs with
  | [] => EmptyString
  | [x] => x
  | x :: xs' => x +:+ sep +:+ join sep xs'
  end.

Definition quoted (s : string) : string := dq +:+ s +:+ dq.

(** Following the specification: the part of the query after the bucket, a
    seven-day window and the five fields of [variables]. *)
Definition flux_window_and_fields : string :=
  nl +:+
  "  |> range(start: -7d)" +:+ nl +:+
  "  |> filter(fn: (r) => r[" +:+ quoted "_measurement" +:+ "] == "
     +:+ quoted "sensores" +:+ ")" +:+ nl +:+
  "  |> filter(fn: (r) => r[" +:+ quoted "_field" +:+ "] =~ /"
     +:+ join "|" variables +:+ "/)" +:+ nl +:+
  "  |> pivot(rowKey:[" +:+ quoted "_time" +:+ "], columnKey: ["
     +:+ quoted "_field" +:+ "], valueColumn: " +:+ quoted "_value" +:+ ")" +:+ nl +:+
  "  |> keep(columns: [" +:+ join ", " (quoted <$> "_time" :: variables)
     +:+ "])" +:+ nl.
(** The sample data with a constant voltage column. *)
Definition simulado_constante : DataFrame :=
  setitem tiempo_simulado "voltaje" (NumCol (replicate 10 230%R)).

(** A column whose last reading is far from the others. *)
Definition columna_con_pico : list R := (replicate 9 0 ++ [10])%R.
(** The report entry lines 100-105 build for row [i] and variable [var]. *)
Definition entrada (df : DataFrame) (var : string) (i : nat) : option Anomalia :=
  fecha ← cell df "Tiempo" i;
  valor ← cell df var i;
  Some (MkAnomalia fecha var valor "Valor fuera de rango normal").

(** The report entries of one variable: its flagged rows in index order. *)
Definition anomalias_de (df : DataFrame) (var : string) : list Anomalia :=
  omap (entrada df var) (where_true (anomalo (num_col df var))).

(** The list [anomalias] after the loop of line 90. *)
Definition anomalias_todas (df : DataFrame) : list Anomalia :=
  concat (anomalias_de df <$> variables).

(** The frame after the loop of line 90. *)
Definition con_banderas (df : DataFrame) (vars : list string) : DataFrame :=
  foldl (λ d var, setitem d (anom_label var) (BoolCol (anomalo (num_col df var))))
        df vars.

(** The sample data with a voltage column that ends in a spike. *)
Definition simulado_con_pico : DataFrame :=
  setitem tiempo_simulado "voltaje" (NumCol columna_con_pico).

(** The number of rows line 98 selects for [var]. *)
Definition n_anomalas (df : DataFrame) (var : string) : nat :=
  length (where_true (anomalo (num_col df var))).

(** The sample data as a query result in which no voltage was recorded. *)
Definition sin_voltaje : DataFrame :=
  Frame 10 (delete "voltaje" (columns datos_simulados)).

(** The frame with the voltage spike, without its timestamp column. *)
Definition sin_tiempo : DataFrame :=
  Frame 10 (delete "Tiempo" (columns simulado_con_pico)).

(** The elements the page below the query is made of: everything except the
    title, the fallback warning and the query. *)
Definition page_event (ev : Event) : bool :=
  match ev with
  | StTitle _ | StWarning _ | QuerySent _ => false
  | _ => true
  end.

(** A script that cannot end in [st.stop()]. *)
Definition never_stops {A} (m : Script A) : Prop := outcome m ≠ Stopped.

(** The sample data as a query result with text in place of the temperature
    readings, and the same frame after line 68. *)
Definition datos_con_texto : DataFrame :=
  setitem datos_simulados "temperatura" (StrCol (replicate 10 "sin dato")).

Definition simulado_con_texto : DataFrame := rename datos_con_texto "_time" "Tiempo".



(** Six readings of 0 followed by a reading of 10. *)
Definition columna_con_pico64 : list Binary64.t :=
  replicate 6 Binary64.zero ++ [Binary64.of_Z 10].

(* ================================================================== *)
(** * Reasoning about scripts                                         *)
(* ================================================================== *)

Section script_laws.
Context {A B : Type}.
Implicit Types (m : Script A) (k : A → Script B).

Lemma bind_ret a k : mret a ≫= k = k a.
Proof. unfold mbind, Script_bind, mret, Script_ret; simpl. by destruct (k a). Qed.

Lemma bind_raise e k : raise e ≫= k = raise e.
Proof. reflexivity. Qed.

Lemma bind_stop k : st_stop ≫= k = st_stop.
Proof. reflexivity. Qed.

Lemma bind_pair l a k : (l, Returned a) ≫= k = (l ++ log (k a), outcome (k a)).
Proof. reflexivity. Qed.

Lemma log_bind m k :
  log (m ≫= k) =
  match outcome m with
  | Returned a => log m ++ log (k a)
  | _ => log m
  end.
Proof. destruct m as [l []]; reflexivity. Qed.

Lemma outcome_bind m k :
  outcome (m ≫= k) =
  match outcome m with
  | Returned a => outcome (k a)
  | Raised e => Raised e
  | Stopped => Stopped
  end.
Proof. destruct m as [l []]; reflexivity. Qed.

Lemma bind_returned m k l b :
  m ≫= k = (l, Returned b) →
  ∃ a l1 l2, m = (l1, Returned a) ∧ k a = (l2, Returned b) ∧ l = l1 ++ l2.
Proof.
  destruct m as [l1 [a|e|]]; unfold mbind, Script_bind; simpl; intros H;
    try discriminate.
  exists a, l1, (k a).1. destruct (k a) as [l2 r]; simpl in *.
  by inversion H; subst.
Qed.
End script_laws.

Lemma script_eta {A} (m : Script A) : m = (log m, outcome m).
Proof. by destruct m. Qed.

Lemma bind_emit {B} ev (k : unit → Script B) :
  emit ev ≫= k = (ev :: log (k tt), outcome (k tt)).
Proof. reflexivity. Qed.

(** A property of every event survives sequencing, loops and handlers. *)
Section log_invariants.
Context (P : Event → Prop).

Lemma Forall_log_bind {A B} (m : Script A) (k : A → Script B) :
  Forall P (log m) → (∀ a, Forall P (log (k a))) → Forall P (log (m ≫= k)).
Proof.
  intros Hm Hk. rewrite log_bind. destruct (outcome m); auto.
  apply Forall_app; auto.
Qed.

Lemma Forall_log_for {A S} (xs : list A) (body : A → S → Script S) s :
  (∀ x s', Forall P (log (body x s'))) → Forall P (log (for_ xs body s)).
Proof.
  intros Hb. revert s. induction xs as [|x xs IH]; intros s; simpl.
  - constructor.
  - apply Forall_log_bind; auto.
Qed.

Lemma Forall_log_try {A} (body : Script A) handler :
  Forall P (log body) → (∀ e, Forall P (log (handler e))) →
  Forall P (log (try_except body handler)).
Proof.
  intros Hb Hh. unfold try_except. destruct body as [l [a|e|]]; simpl in *; auto.
  apply Forall_app; split; [done|apply Hh].
Qed.
End log_invariants.

(* ================================================================== *)
(** * The two-standard-deviation test                                 *)
(* ================================================================== *)

Section anomalo_facts.
Local Open Scope R_scope.
Implicit Types (col : list R) (v m s : R).

Lemma length_anomalo col : length (anomalo col) = length col.
Proof. unfold anomalo. by rewrite length_map. Qed.

(** The comparison of line 95 against limits that are numbers. *)
Lemma outside_limits_iff v m s :
  bool_decide (v < m - 2 * s) || bool_decide (m + 2 * s < v) = true ↔
  Rabs (v - m) > 2 * s.
Proof.
  rewrite orb_true_iff, !bool_decide_eq_true.
  unfold Rabs. destruct (Rcase_abs (v - m)); lra.
Qed.

Lemma anomalo_lookup_true col i :
  anomalo col !! i = Some true ↔
  ∃ v m s, col !! i = Some v ∧ mean col = Some m ∧ std col = Some s ∧
           Rabs (v - m) > 2 * s.
Proof.
  unfold anomalo. rewrite list_lookup_fmap.
  destruct (col !! i) as [v|] eqn:Hv; simpl.
  - destruct (mean col) as [m|] eqn:Hm, (std col) as [s|] eqn:Hs; simpl.
    + split.
      * intros [= H]. exists v, m, s. by rewrite <- outside_limits_iff.
      * intros (v' & m' & s' & [= <-] & [= <-] & [= <-] & H).
        f_equal. by apply outside_limits_iff.
    + split; [done|]. by intros (? & ? & ? & _ & _ & ? & _).
    + split; [done|]. by intros (? & ? & ? & _ & ? & _).
    + split; [done|]. by intros (? & ? & ? & _ & ? & _).
  - split; [done|]. by intros (? & ? & ? & ? & _).
Qed.

Lemma Rsum_cons x xs : Rsum (x :: xs) = x + Rsum xs.
Proof. reflexivity. Qed.

Lemma mean_cons x xs : mean (x :: xs) = Some (Rsum (x :: xs) / INR (length (x :: xs))).
Proof. reflexivity. Qed.

Lemma std_cons2 x y xs :
  std (x :: y :: xs) =
  (m ← mean (x :: y :: xs);
   Some (sqrt (sqdev m (x :: y :: xs) / (INR (length (x :: y :: xs)) - 1)))).
Proof. reflexivity. Qed.

Lemma anomalo_within col m s :
  mean col = Some m → std col = Some s →
  Forall (λ v, m - 2 * s <= v <= m + 2 * s) col →
  anomalo col = replicate (length col) false.
Proof.
  intros Hm Hs Hall. unfold anomalo. rewrite Hm, Hs. simpl. clear Hm Hs.
  induction Hall as [|v col Hv _ IH]; [done|]. simpl. f_equal; [|exact IH].
  apply orb_false_iff. rewrite !bool_decide_eq_false. lra.
Qed.

(** Two standard deviations cover a deviation whose square is at most four
    times the variance. *)
Lemma two_sigma_covers d V : d * d <= 4 * V → Rabs d <= 2 * sqrt V.
Proof.
  intros H.
  assert (HV : 0 <= V) by nra.
  rewrite <- sqrt_Rsqr_abs.
  replace (2 * sqrt V) with (sqrt (4 * V)).
  - apply sqrt_le_1_alt. unfold Rsqr. lra.
  - rewrite sqrt_mult by lra. f_equal.
    replace 4 with (2 * 2) by lra. apply sqrt_square. lra.
Qed.

Lemma anomalo_by_variance col m :
  (2 ≤ length col)%nat →
  mean col = Some m →
  Forall (λ v, (v - m) * (v - m) <= 4 * (sqdev m col / (INR (length col) - 1))) col →
  anomalo col = replicate (length col) false.
Proof.
  intros Hn Hm Hall.
  apply (anomalo_within col m (sqrt (sqdev m col / (INR (length col) - 1)))); [done| |].
  - destruct col as [|x [|y col]]; simpl in Hn; [lia..|].
    rewrite std_cons2, Hm. reflexivity.
  - eapply Forall_impl; [exact Hall|]. intros v Hv. simpl in Hv.
    apply two_sigma_covers in Hv. revert Hv. unfold Rabs.
    destruct (Rcase_abs (v - m)); lra.
Qed.
End anomalo_facts.

(* ================================================================== *)
(** * Column access                                                   *)
(* ================================================================== *)

Section access.
Implicit Types (df : DataFrame) (k : string).

Lemma getitem_returned df k l c :
  getitem df k = (l, Returned c) → l = [] ∧ columns df !! k = Some c.
Proof. unfold getitem. destruct (columns df !! k); intros [= <- <-]; done. Qed.

Lemma numeric_returned c l xs :
  numeric c = (l, Returned xs) → l = [] ∧ c = NumCol xs.
Proof. destruct c; intros [= <- <-]; done. Qed.

Lemma series_returned df k l xs :
  getitem df k ≫= numeric = (l, Returned xs) →
  l = [] ∧ columns df !! k = Some (NumCol xs).
Proof.
  intros (c & l1 & l2 & H1 & H2 & ->)%bind_returned.
  apply getitem_returned in H1 as [-> H1]. apply numeric_returned in H2 as [-> ->].
  done.
Qed.

Lemma row_get_returned df i k l v :
  row_get df i k = (l, Returned v) → l = [] ∧ cell df k i = Some v.
Proof.
  unfold row_get, cell.
  intros (c & l1 & l2 & H1 & H2 & ->)%bind_returned.
  apply getitem_returned in H1 as [-> H1]. rewrite H1. simpl.
  destruct (cell_at c i); inversion H2; done.
Qed.

Lemma series_of_column df k xs :
  columns df !! k = Some (NumCol xs) → getitem df k ≫= numeric = mret xs.
Proof. intros H. unfold getitem. rewrite H. by rewrite bind_ret. Qed.

Lemma row_get_of_cell df i k v :
  cell df k i = Some v → row_get df i k = mret v.
Proof.
  unfold cell, row_get, getitem. destruct (columns df !! k) as [c|]; [|done].
  intros H. simpl in H. rewrite bind_ret. by rewrite H.
Qed.
End access.

(* ================================================================== *)
(** * The anomaly loop                                                *)
(* ================================================================== *)

Section labels.
Lemma anom_label_head var : ∃ r, anom_label var = String "A" r.
Proof. eexists. reflexivity. Qed.

Lemma anom_label_inj v1 v2 : anom_label v1 = anom_label v2 → v1 = v2.
Proof. unfold anom_label. intros H. by simplify_eq/=. Qed.

Lemma variables_not_flag var v : var ∈ variables → anom_label v ≠ var.
Proof.
  intros Hin Heq. destruct (anom_label_head v) as [r Hr]. rewrite Hr in Heq.
  unfold variables in Hin.
  repeat (apply elem_of_cons in Hin as [->|Hin]; [discriminate|]).
  by apply elem_of_nil in Hin.
Qed.

Lemma Tiempo_not_flag v : anom_label v ≠ "Tiempo".
Proof. destruct (anom_label_head v) as [r ->]. done. Qed.
End labels.

Section deteccion_facts.
Implicit Types (df : DataFrame) (var k : string) (an : list Anomalia).

Lemma cell_setitem_ne df k k' c i :
  k' ≠ k → cell (setitem df k' c) k i = cell df k i.
Proof. intros H. unfold cell, setitem. simpl. by rewrite lookup_insert_ne. Qed.

Lemma registrar_returned df var i an l an' :
  registrar df var i an = (l, Returned an') →
  l = [] ∧ ∃ a, an' = an ++ [a] ∧ copia df var i a.
Proof.
  unfold registrar.
  intros (f & l1 & l2 & H1 & H2 & ->)%bind_returned.
  apply bind_returned in H2 as (v & l3 & l4 & H2 & H3 & ->).
  apply row_get_returned in H1 as [-> H1]. apply row_get_returned in H2 as [-> H2].
  inversion H3; subst. split; [done|]. eexists. split; [done|]. done.
Qed.

Lemma filas_returned df var idxs an l an' :
  for_ idxs (registrar df var) an = (l, Returned an') →
  l = [] ∧ ∃ news, an' = an ++ news ∧ Forall2 (copia df var) idxs news.
Proof.
  revert an l. induction idxs as [|i idxs IH]; intros an l; simpl.
  - intros [= <- <-]. split; [done|]. exists []. by rewrite app_nil_r.
  - intros (an1 & l1 & l2 & H1 & H2 & ->)%bind_returned.
    apply registrar_returned in H1 as (-> & a & -> & Ha).
    apply IH in H2 as (-> & news & -> & Hnews).
    split; [done|]. exists (a :: news). rewrite <- app_assoc. split; [done|].
    by constructor.
Qed.

Lemma detectar_returned var df an l df' an' :
  detectar var (df, an) = (l, Returned (df', an')) →
  l = [] ∧ ∃ col news,
    columns df !! var = Some (NumCol col) ∧
    df' = setitem df (anom_label var) (BoolCol (anomalo col)) ∧
    an' = an ++ news ∧
    Forall2 (copia df' var) (where_true (anomalo col)) news.
Proof.
  unfold detectar.
  intros (col & l1 & l2 & H1 & H2 & ->)%bind_returned.
  apply series_returned in H1 as [-> H1].
  apply bind_returned in H2 as (an1 & l3 & l4 & H2 & H3 & ->).
  inversion H3; subst.
  apply filas_returned in H2 as (-> & news & -> & Hnews).
  split; [done|]. by exists col, news.
Qed.

(** What a completed run of the loop of line 90 over [vars] has done. *)
Lemma for_detectar_returned vars df an l df' an' :
  for_ vars detectar (df, an) = (l, Returned (df', an')) →
  (∀ var v, var ∈ vars → anom_label v ≠ var) →
  l = [] ∧ nrows df' = nrows df ∧
  (∀ k, (∀ v, v ∈ vars → k ≠ anom_label v) → columns df' !! k = columns df !! k) ∧
  (∀ var, var ∈ vars → ∃ col,
      columns df !! var = Some (NumCol col) ∧
      columns df' !! anom_label var = Some (BoolCol (anomalo col))) ∧
  ∃ news, an' = an ++ news ∧
    Forall (λ a, VariableName a ∈ vars ∧ ∃ i, copia df (VariableName a) i a) news.
Proof.
  revert df an l. induction vars as [|var vars IH]; intros df an l; simpl.
  - intros [= <- <- <-] _. repeat split; try done.
    + intros var Hin. by apply elem_of_nil in Hin.
    + exists []. by rewrite app_nil_r.
  - intros ([df1 an1] & l1 & l2 & H1 & H2 & ->)%bind_returned Hlab.
    apply detectar_returned in H1 as (-> & col & news1 & Hcol & -> & -> & Hn1).
    apply IH in H2 as (-> & Hrows & Hframe & Hflags & news2 & -> & Hn2);
      [|intros v0 v1 Hv0; apply Hlab; by right].
    split_and!; [done|done|..].
    + intros k Hk. rewrite Hframe by (intros v Hv; apply Hk; by right).
      simpl. rewrite lookup_insert_ne; [done|]. intros <-. by eapply Hk; [left|].
    + intros v [->|Hv]%elem_of_cons.
      * exists col. split; [done|].
        destruct (decide (var ∈ vars)) as [Hin|Hout].
        -- destruct (Hflags _ Hin) as (col' & Hc' & ->). simpl in Hc'.
           rewrite lookup_insert_ne in Hc' by (eapply Hlab; left).
           by simplify_eq.
        -- rewrite Hframe; [simpl; by rewrite lookup_insert_eq|].
           intros v Hv ?%anom_label_inj. by subst.
      * destruct (Hflags _ Hv) as (col' & Hc' & ->). simpl in Hc'.
        rewrite lookup_insert_ne in Hc' by (eapply Hlab; by right).
        by exists col'.
    + exists (news1 ++ news2). rewrite app_assoc. split; [done|].
      apply Forall_app. split.
      * clear -Hn1 Hlab. induction Hn1 as [|i a is' news Ha _ IH']; constructor; [|done].
        destruct Ha as (Ht & Hv & Hname & Hd). rewrite Hname.
        split; [left|]. exists i.
        rewrite cell_setitem_ne in Ht by apply Tiempo_not_flag.
        rewrite cell_setitem_ne in Hv by (apply Hlab; left). done.
      * eapply Forall_impl; [exact Hn2|]. intros a (Hin & i & Ht & Hv & Hname & Hd).
        split; [by right|]. exists i.
        rewrite cell_setitem_ne in Ht by apply Tiempo_not_flag.
        rewrite cell_setitem_ne in Hv by (apply Hlab; by right). done.
Qed.
End deteccion_facts.

Section totality.
Implicit Types (df : DataFrame) (var k : string) (an : list Anomalia).

Lemma zip_seq_lookup {A} (l : list A) s i b :
  (i, b) ∈ zip (seq s (length l)) l → (s ≤ i)%nat ∧ l !! (i - s) = Some b.
Proof.
  revert s. induction l as [|x l IH]; intros s; simpl.
  - by intros ?%elem_of_nil.
  - intros [[= -> ->]|Hin]%elem_of_cons.
    + split; [lia|]. by rewrite Nat.sub_diag.
    + apply IH in Hin as [Hle Hl]. split; [lia|].
      replace (i - s) with (S (i - S s)) by lia. done.
Qed.

Lemma where_true_lookup mask i : i ∈ where_true mask → mask !! i = Some true.
Proof.
  unfold where_true, enumerate. intros ([j b] & Hin & Hf)%list_elem_of_omap.
  destruct b; [|done]. injection Hf as ->.
  apply zip_seq_lookup in Hin as [_ Hl]. by rewrite Nat.sub_0_r in Hl.
Qed.

Lemma where_true_lt mask i : i ∈ where_true mask → i < length mask.
Proof. intros H%where_true_lookup. by eapply lookup_lt_Some. Qed.

Lemma cell_at_is_Some c i : i < col_length c → is_Some (cell_at c i).
Proof.
  destruct c; simpl; intros H; apply fmap_is_Some; by apply lookup_lt_is_Some.
Qed.

Lemma registrar_of_cells df var i an f v :
  cell df "Tiempo" i = Some f → cell df var i = Some v →
  registrar df var i an =
  mret (an ++ [MkAnomalia f var v "Valor fuera de rango normal"]).
Proof.
  intros Hf Hv. unfold registrar.
  rewrite (row_get_of_cell _ _ _ _ Hf), bind_ret.
  by rewrite (row_get_of_cell _ _ _ _ Hv), bind_ret.
Qed.

Lemma filas_total df var idxs an :
  Forall (λ i, is_Some (cell df "Tiempo" i) ∧ is_Some (cell df var i)) idxs →
  ∃ news, for_ idxs (registrar df var) an = ([], Returned (an ++ news)).
Proof.
  intros H. revert an. induction H as [|i idxs [[f Hf] [v Hv]] _ IH]; intros an;
    cbn [for_].
  - exists []. by rewrite app_nil_r.
  - rewrite (registrar_of_cells _ _ _ _ _ _ Hf Hv), bind_ret.
    destruct (IH (an ++ [MkAnomalia f var v "Valor fuera de rango normal"]))
      as [news ->].
    eexists (_ :: news). by rewrite <- app_assoc.
Qed.

Lemma detectar_total var df an col t :
  columns df !! var = Some (NumCol col) →
  columns df !! "Tiempo" = Some t → (length col ≤ col_length t)%nat →
  (∀ v, anom_label v ≠ var) →
  ∃ news, detectar var (df, an) =
    ([], Returned (setitem df (anom_label var) (BoolCol (anomalo col)), an ++ news)).
Proof.
  intros Hcol Ht Hlen Hlab. unfold detectar.
  rewrite (series_of_column _ _ _ Hcol), bind_ret.
  edestruct (filas_total (setitem df (anom_label var) (BoolCol (anomalo col))) var
              (where_true (anomalo col)) an) as [news Hnews].
  - apply Forall_forall. intros i Hi%where_true_lt. rewrite length_anomalo in Hi.
    rewrite !cell_setitem_ne by (apply Tiempo_not_flag || apply Hlab).
    unfold cell. rewrite Ht, Hcol.
    change (is_Some (cell_at t i) ∧ is_Some (cell_at (NumCol col) i)).
    split; apply cell_at_is_Some; simpl; lia.
  - exists news. rewrite Hnews. reflexivity.
Qed.

Lemma for_detectar_total vars df an :
  (∀ var v, var ∈ vars → anom_label v ≠ var) →
  (∀ var, var ∈ vars →
     ∃ col, columns df !! var = Some (NumCol col) ∧ length col = nrows df) →
  (∃ t, columns df !! "Tiempo" = Some t ∧ col_length t = nrows df) →
  ∃ df' an', for_ vars detectar (df, an) = ([], Returned (df', an')).
Proof.
  revert df an. induction vars as [|var vars IH]; intros df an Hlab Hcols Ht;
    cbn [for_].
  - by eexists _, _.
  - destruct (Hcols var) as (col & Hcol & Hlen); [left|].
    destruct Ht as (t & Ht & Htlen).
    destruct (detectar_total var df an col t) as [news ->]; [done|done|lia| |].
    { intros v. apply Hlab. left. }
    rewrite bind_pair. simpl.
    edestruct (IH (setitem df (anom_label var) (BoolCol (anomalo col))) (an ++ news))
      as (df' & an' & ->).
    + intros v0 v1 Hv0. apply Hlab. by right.
    + intros v0 Hv0. simpl. rewrite lookup_insert_ne by (apply Hlab; by right).
      apply Hcols. by right.
    + exists t. simpl. by rewrite lookup_insert_ne by apply Tiempo_not_flag.
    + by eexists _, _.
Qed.

Lemma deteccion_total df :
  lecturas df → ∃ df' an, deteccion df = ([], Returned (df', an)).
Proof.
  intros (_ & Hcols & Ht). apply for_detectar_total; [|done..].
  intros var v Hin. by apply variables_not_flag.
Qed.

Lemma deteccion_returned df l df' an :
  deteccion df = (l, Returned (df', an)) →
  l = [] ∧ nrows df' = nrows df ∧
  (∀ k, (∀ v, v ∈ variables → k ≠ anom_label v) →
        columns df' !! k = columns df !! k) ∧
  (∀ var, var ∈ variables → ∃ col,
      columns df !! var = Some (NumCol col) ∧
      columns df' !! anom_label var = Some (BoolCol (anomalo col))) ∧
  Forall (λ a, VariableName a ∈ variables ∧ ∃ i, copia df (VariableName a) i a) an.
Proof.
  intros H. apply for_detectar_returned in H as (-> & Hn & Hf & Hfl & news & -> & Hnews).
  - done.
  - intros var v Hin. by apply variables_not_flag.
Qed.

Lemma deteccion_preserves_lecturas df l df' an :
  deteccion df = (l, Returned (df', an)) → lecturas df → lecturas df'.
Proof.
  intros (-> & Hn & Hframe & _)%deteccion_returned (Hpos & Hcols & Ht).
  assert (Hkeep : ∀ k, k ∈ "Tiempo" :: variables →
            columns df' !! k = columns df !! k).
  { intros k Hk. apply Hframe. intros v _ ->.
    apply elem_of_cons in Hk as [Hk|Hk].
    - by eapply Tiempo_not_flag.
    - by eapply variables_not_flag. }
  split_and!.
  - by rewrite Hn.
  - intros var Hvar. rewrite Hn, Hkeep by (by right). by apply Hcols.
  - rewrite Hn, Hkeep by left. done.
Qed.
End totality.

(* ================================================================== *)
(** * The fitted line                                                 *)
(* ================================================================== *)

Section least_squares.
Import LinearRegression.
Local Open Scope R_scope.
Implicit Types (X y : list R) (a b : R).

Lemma dot_cons x xs v ys : dot (x :: xs) (v :: ys) = x * v + dot xs ys.
Proof. reflexivity. Qed.

Lemma rss_cons a b x X v y :
  rss a b (x :: X) (v :: y) = (v - (a * x + b)) * (v - (a * x + b)) + rss a b X y.
Proof. reflexivity. Qed.

Lemma dot_self_nonneg xs : 0 <= dot xs xs.
Proof.
  induction xs as [|x xs IH]; [unfold dot; simpl; lra|].
  rewrite dot_cons. nra.
Qed.

Lemma dot_self_zero xs ys : dot xs xs = 0 → dot xs ys = 0.
Proof.
  revert ys. induction xs as [|x xs IH]; intros ys; [done|].
  rewrite dot_cons. intros H. pose proof (dot_self_nonneg xs) as Hnn.
  assert (x = 0) as -> by nra. assert (dot xs xs = 0) as Hxs by nra.
  destruct ys as [|v ys]; [done|]. rewrite dot_cons, IH by done. lra.
Qed.

(** The residual sum of squares around any centre [(xb, yb)]. *)
Lemma rss_expand X y a b xb yb :
  length X = length y →
  rss a b X y =
    dot (centre yb y) (centre yb y) - 2 * a * dot (centre xb X) (centre yb y)
    + a * a * dot (centre xb X) (centre xb X)
    + 2 * (yb - a * xb - b)
        * ((Rsum y - INR (length y) * yb) - a * (Rsum X - INR (length X) * xb))
    + INR (length X) * ((yb - a * xb - b) * (yb - a * xb - b)).
Proof.
  revert y. induction X as [|x X IH]; intros [|v y] Hlen; try discriminate Hlen.
  - unfold rss, dot, Rsum. simpl. lra.
  - injection Hlen as Hlen. specialize (IH y Hlen).
    change (centre yb (v :: y)) with ((v - yb) :: centre yb y).
    change (centre xb (x :: X)) with ((x - xb) :: centre xb X).
    rewrite rss_cons, !dot_cons, !Rsum_cons, IH.
    change (length (v :: y)) with (S (length y)).
    rewrite <- Hlen.
    change (length (x :: X)) with (S (length X)).
    rewrite !S_INR. ring.
Qed.

Lemma mean_Some_inv xs m :
  mean xs = Some m → xs ≠ [] ∧ Rsum xs - INR (length xs) * m = 0.
Proof.
  destruct xs as [|x xs]; [done|]. rewrite mean_cons. intros Hm.
  assert (m = Rsum (x :: xs) / INR (length (x :: xs))) as -> by congruence.
  split; [done|]. assert (INR (length (x :: xs)) ≠ 0) by (apply not_0_INR; done).
  generalize dependent (INR (length (x :: xs))). intros n _ Hn. by field.
Qed.

Lemma rss_around_means X y a b xb yb :
  length X = length y → mean X = Some xb → mean y = Some yb →
  rss a b X y =
    dot (centre yb y) (centre yb y) - 2 * a * dot (centre xb X) (centre yb y)
    + a * a * dot (centre xb X) (centre xb X)
    + INR (length X) * ((yb - a * xb - b) * (yb - a * xb - b)).
Proof.
  intros Hlen [_ Hx]%mean_Some_inv [_ Hy]%mean_Some_inv.
  rewrite (rss_expand X y a b xb yb Hlen), Hx, Hy. ring.
Qed.

Lemma fit_Some_inv X y modelo :
  fit X y = Some modelo →
  ∃ xb yb, length X = length y ∧ mean X = Some xb ∧ mean y = Some yb ∧
    let sxx := dot (centre xb X) (centre xb X) in
    let sxy := dot (centre xb X) (centre yb y) in
    coef_ modelo * sxx = sxy ∧
    (sxx = 0 → coef_ modelo = 0) ∧
    intercept_ modelo = yb - xb * coef_ modelo.
Proof.
  unfold fit. destruct (decide (length X = length y)) as [Hlen|]; [|done].
  destruct (mean X) as [xb|] eqn:Hx; [|done].
  destruct (mean y) as [yb|] eqn:Hy; [|done]. simpl.
  intros [= <-]. exists xb, yb. split_and!; try done; simpl.
  - destruct (decide (dot (centre xb X) (centre xb X) = 0)) as [Hz|Hnz].
    + rewrite (dot_self_zero _ (centre yb y) Hz). lra.
    + by field.
  - intros Hz. by rewrite decide_True.
Qed.

(** The difference between the residuals of any line and those of the
    fitted one. *)
Lemma rss_gap X y modelo a b :
  fit X y = Some modelo →
  ∃ xb yb, mean X = Some xb ∧ mean y = Some yb ∧
    rss a b X y - rss (coef_ modelo) (intercept_ modelo) X y =
      dot (centre xb X) (centre xb X) * ((a - coef_ modelo) * (a - coef_ modelo))
      + INR (length X) * ((yb - a * xb - b) * (yb - a * xb - b)).
Proof.
  intros (xb & yb & Hlen & Hx & Hy & Hc & _ & Hi)%fit_Some_inv. simpl in Hc.
  exists xb, yb. split; [done|]. split; [done|].
  rewrite !(rss_around_means X y _ _ xb yb Hlen Hx Hy), Hi, <- Hc. ring.
Qed.

(** scikit-learn's fit is an ordinary least-squares line. *)
Lemma fit_least_squares X y modelo :
  fit X y = Some modelo → ols_line (coef_ modelo) (intercept_ modelo) X y.
Proof.
  intros Hfit a b. destruct (rss_gap X y modelo a b Hfit) as (xb & yb & _ & _ & Hgap).
  assert (0 <= dot (centre xb X) (centre xb X)
               * ((a - coef_ modelo) * (a - coef_ modelo))).
  { apply Rmult_le_pos; [apply dot_self_nonneg|apply Rle_0_sqr]. }
  assert (0 <= INR (length X) * ((yb - a * xb - b) * (yb - a * xb - b))).
  { apply Rmult_le_pos; [apply pos_INR|apply Rle_0_sqr]. }
  lra.
Qed.

(** When the feature is not constant the least-squares line is unique. *)
Lemma ols_line_unique X y modelo xb a b :
  fit X y = Some modelo → mean X = Some xb →
  0 < dot (centre xb X) (centre xb X) →
  ols_line a b X y → a = coef_ modelo ∧ b = intercept_ modelo.
Proof.
  intros Hfit Hx Hpos Hols.
  destruct (rss_gap X y modelo a b Hfit) as (xb' & yb & Hx' & Hy & Hgap).
  assert (xb' = xb) as -> by congruence.
  apply fit_Some_inv in Hfit as (xb' & yb' & Hlen & Hx'' & Hy' & _ & _ & Hi).
  assert (xb' = xb) as -> by congruence. assert (yb' = yb) as -> by congruence.
  specialize (Hols (coef_ modelo) (intercept_ modelo)).
  assert (Hn : 0 < INR (length X)).
  { apply lt_0_INR. destruct X; [done|simpl; lia]. }
  set (d := a - coef_ modelo) in *. set (e := yb - a * xb - b) in *.
  set (sxx := dot (centre xb X) (centre xb X)) in *.
  assert (0 <= sxx * (d * d)) by (apply Rmult_le_pos; [lra|apply Rle_0_sqr]).
  assert (0 <= INR (length X) * (e * e)) by (apply Rmult_le_pos; [lra|apply Rle_0_sqr]).
  assert (Hd : sxx * (d * d) = 0) by lra.
  assert (He : INR (length X) * (e * e) = 0) by lra.
  apply Rmult_integral in Hd as [Hd|Hd]; [lra|].
  apply Rmult_integral in He as [He|He]; [lra|].
  apply (Rsqr_0_uniq d) in Hd. apply (Rsqr_0_uniq e) in He. unfold d, e in *.
  assert (a = coef_ modelo) as -> by lra. split; [done|]. rewrite Hi. lra.
Qed.

Lemma length_range n : length (range n) = n.
Proof. unfold range. by rewrite length_map, length_seq. Qed.

Lemma fit_is_Some X y :
  length X = length y → X ≠ [] → is_Some (fit X y).
Proof.
  intros Hlen HX. unfold fit. rewrite decide_True by done.
  destruct X as [|x X], y as [|v y]; try done.
Qed.

Lemma futuro_is_Some n y : length y = n → (0 < n)%nat → is_Some (futuro n y).
Proof.
  intros Hlen Hn. unfold futuro.
  destruct (fit_is_Some (range n) y) as [modelo ->]; [by rewrite length_range| |done].
  destruct n; [lia|done].
Qed.
End least_squares.

(* ================================================================== *)
(** * The prediction loop and the statistics                          *)
(* ================================================================== *)

Section prediccion_facts.
Implicit Types (df : DataFrame) (var : string) (ps : list (string * R)).

Lemma predecir_of_column df var ps y :
  columns df !! var = Some (NumCol y) →
  predecir df var ps =
  match futuro (len df) y with
  | Some f => mret (ps ++ [(var, f)])
  | None => raise (ValueError "fit: empty or inconsistent sample")
  end.
Proof.
  intros Hy. unfold predecir, futuro.
  rewrite (series_of_column _ _ _ Hy), bind_ret.
  by destruct (LinearRegression.fit (range (len df)) y).
Qed.

Lemma predecir_returned df var ps l ps' :
  predecir df var ps = (l, Returned ps') →
  l = [] ∧ ∃ y f, columns df !! var = Some (NumCol y) ∧
                  futuro (len df) y = Some f ∧ ps' = ps ++ [(var, f)].
Proof.
  unfold predecir.
  intros (y & l1 & l2 & H1 & H2 & ->)%bind_returned.
  apply series_returned in H1 as [-> H1].
  destruct (LinearRegression.fit (range (len df)) y) as [modelo|] eqn:Hfit;
    [|discriminate H2].
  inversion H2; subst. split; [done|].
  eexists y, _. split; [done|]. split; [|done].
  unfold futuro. by rewrite Hfit.
Qed.

Lemma for_predecir_returned vars df ps l ps' :
  for_ vars (predecir df) ps = (l, Returned ps') →
  l = [] ∧ ∃ news, ps' = ps ++ news ∧
    Forall2 (λ var p, p.1 = var ∧ ∃ y, columns df !! var = Some (NumCol y) ∧
                                      futuro (len df) y = Some p.2) vars news.
Proof.
  revert ps l. induction vars as [|var vars IH]; intros ps l; cbn [for_].
  - intros [= <- <-]. split; [done|]. exists []. by rewrite app_nil_r.
  - intros (ps1 & l1 & l2 & H1 & H2 & ->)%bind_returned.
    apply predecir_returned in H1 as (-> & y & f & Hy & Hf & ->).
    apply IH in H2 as (-> & news & -> & Hnews).
    split; [done|]. exists ((var, f) :: news). rewrite <- app_assoc.
    split; [done|]. constructor; [|done]. split; [done|]. by exists y.
Qed.

Lemma for_predecir_total vars df ps :
  (0 < nrows df)%nat →
  (∀ var, var ∈ vars →
     ∃ col, columns df !! var = Some (NumCol col) ∧ length col = nrows df) →
  ∃ news, for_ vars (predecir df) ps = ([], Returned (ps ++ news)).
Proof.
  intros Hn. revert ps. induction vars as [|var vars IH]; intros ps Hcols; cbn [for_].
  - exists []. by rewrite app_nil_r.
  - destruct (Hcols var) as (col & Hcol & Hlen); [left|].
    rewrite (predecir_of_column _ _ _ _ Hcol).
    destruct (futuro_is_Some (len df) col) as [f ->]; [done|done|].
    rewrite bind_ret.
    destruct (IH (ps ++ [(var, f)])) as [news ->].
    { intros v Hv. apply Hcols. by right. }
    exists ((var, f) :: news). by rewrite <- app_assoc.
Qed.

Lemma prediccion_returned df l ps :
  prediccion df = (l, Returned ps) →
  l = [] ∧
  Forall2 (λ var p, p.1 = var ∧ ∃ y, columns df !! var = Some (NumCol y) ∧
                                    futuro (len df) y = Some p.2) variables ps.
Proof. by intros (-> & news & -> & H)%for_predecir_returned. Qed.

Lemma prediccion_total df :
  lecturas df → ∃ ps, prediccion df = ([], Returned ps).
Proof.
  intros (Hn & Hcols & _).
  destruct (for_predecir_total variables df [] Hn Hcols) as [news H].
  by exists news.
Qed.
End prediccion_facts.

Section estadisticas_facts.
Implicit Types (df : DataFrame).

Lemma for_emit {A} (f : A → Event) (xs : list A) :
  for_ xs (λ x _, emit (f x)) tt = (f <$> xs, Returned tt).
Proof.
  induction xs as [|x xs IH]; [done|]. cbn [for_]. by rewrite bind_emit, IH.
Qed.

Lemma estadisticas_total df :
  lecturas df → ∃ l, estadisticas df = (l, Returned tt).
Proof.
  intros (_ & Hcols & _). unfold estadisticas.
  assert (Hall : ∀ p : nat * string, p ∈ enumerate variables → p.2 ∈ variables).
  { intros [i v] Hin. simpl. unfold enumerate in Hin.
    apply elem_of_zip_r in Hin. done. }
  revert Hall. generalize (enumerate variables). intros ps.
  induction ps as [|[i var] ps IH]; intros Hall; cbn [for_].
  - by eexists.
  - destruct (Hcols var) as (col & Hcol & _); [apply (Hall (i, var)); left|].
    rewrite (series_of_column _ _ _ Hcol), bind_ret, bind_emit.
    destruct IH as [l ->]; [intros p Hp; apply Hall; by right|].
    by eexists.
Qed.
End estadisticas_facts.

(* ================================================================== *)
(** * The script on the sample data                                   *)
(* ================================================================== *)

Section futuro_simulado.
Import LinearRegression.
Local Open Scope R_scope.

Lemma range_10 : range 10 = [0; 1; 2; 3; 4; 5; 6; 7; 8; 9].
Proof. unfold range. simpl. repeat (f_equal; try lra). Qed.

Lemma INR_10 : INR 10 = 10.
Proof. simpl. lra. Qed.

Lemma INR_11 : INR (10 + 1) = 11.
Proof. simpl. lra. Qed.

Ltac eval_futuro :=
  unfold futuro; rewrite range_10; unfold fit;
  rewrite decide_True by reflexivity;
  rewrite !mean_cons; cbn [mbind option_bind];
  unfold centre, dot, Rsum; cbn [map zip_with foldr length];
  rewrite INR_11, !INR_10;
  rewrite decide_False by lra;
  unfold predict; cbn [coef_ intercept_]; f_equal;
  unfold Q2R; cbn [QArith_base.Qnum QArith_base.Qden]; field.

Lemma futuro_temperatura :
  futuro 10 [28; 29; 30; 32; 33; 31; 30; 29; 28; 27] = Some (4712 / 165).
Proof. eval_futuro. Qed.

Lemma futuro_humedad :
  futuro 10 [55; 58; 60; 62; 59; 61; 63; 65; 60; 58] = Some (10378 / 165).
Proof. eval_futuro. Qed.

Lemma futuro_vibracion :
  futuro 10 [1.2; 1.3; 1.5; 1.7; 1.8; 1.6; 1.5; 1.4; 1.3; 1.2] = Some (1154 / 825).
Proof. eval_futuro. Qed.

Lemma futuro_corriente :
  futuro 10 [5.5; 5.8; 6.0; 6.2; 6.5; 6.1; 5.9; 5.8; 5.6; 5.7] = Some (4814 / 825).
Proof. eval_futuro. Qed.

Lemma futuro_voltaje :
  futuro 10 [230; 231; 229; 228; 232; 233; 230; 229; 231; 230] = Some (7609 / 33).
Proof. eval_futuro. Qed.
End futuro_simulado.

Section simulados.
Local Open Scope R_scope.

Ltac no_flags m :=
  match goal with
  | |- anomalo ?c = _ => apply (anomalo_by_variance c m)
  end;
  [ simpl; lia
  | rewrite mean_cons; f_equal; unfold Rsum; simpl; lra
  | repeat constructor; unfold sqdev, Rsum; simpl; lra ].

Lemma anomalo_temperatura :
  anomalo [28; 29; 30; 32; 33; 31; 30; 29; 28; 27] = replicate 10 false.
Proof. no_flags 29.7. Qed.

Lemma anomalo_humedad :
  anomalo [55; 58; 60; 62; 59; 61; 63; 65; 60; 58] = replicate 10 false.
Proof. no_flags 60.1. Qed.

Lemma anomalo_vibracion :
  anomalo [1.2; 1.3; 1.5; 1.7; 1.8; 1.6; 1.5; 1.4; 1.3; 1.2] = replicate 10 false.
Proof. no_flags 1.45. Qed.

Lemma anomalo_corriente :
  anomalo [5.5; 5.8; 6.0; 6.2; 6.5; 6.1; 5.9; 5.8; 5.6; 5.7] = replicate 10 false.
Proof. no_flags 5.91. Qed.

Lemma anomalo_voltaje :
  anomalo [230; 231; 229; 228; 232; 233; 230; 229; 231; 230] = replicate 10 false.
Proof. no_flags 230.3. Qed.

Lemma where_true_replicate_false n : where_true (replicate n false) = [].
Proof.
  unfold where_true, enumerate. rewrite length_replicate.
  generalize 0%nat. induction n as [|n IH]; intros s; [done|].
  simpl. apply IH.
Qed.

Lemma detectar_sin_anomalias var df an col :
  columns df !! var = Some (NumCol col) →
  anomalo col = replicate (length col) false →
  detectar var (df, an) =
  ([], Returned (setitem df (anom_label var) (BoolCol (replicate (length col) false)), an)).
Proof.
  intros Hcol Hflags. unfold detectar.
  rewrite (series_of_column _ _ _ Hcol), bind_ret, Hflags.
  rewrite where_true_replicate_false. cbn [for_]. by rewrite bind_ret.
Qed.

Ltac paso_deteccion H :=
  match goal with
  | |- context [detectar ?v (?d, ?a)] =>
      rewrite (detectar_sin_anomalias v d a _ eq_refl H), bind_pair;
      cbn [log outcome fst snd app]
  end.

Lemma deteccion_simulados :
  deteccion tiempo_simulado = ([], Returned (simulados_con_banderas, [])).
Proof.
  unfold deteccion, variables. cbn [for_].
  paso_deteccion anomalo_temperatura. paso_deteccion anomalo_humedad.
  paso_deteccion anomalo_vibracion. paso_deteccion anomalo_corriente.
  paso_deteccion anomalo_voltaje. reflexivity.
Qed.

Ltac paso_prediccion H :=
  match goal with
  | |- context [predecir ?d ?v ?ps] =>
      rewrite (predecir_of_column d v ps _ eq_refl);
      change (len d) with 10%nat; rewrite H, bind_ret
  end.

Lemma prediccion_simulados :
  prediccion simulados_con_banderas = ([], Returned predicciones_simuladas).
Proof.
  unfold prediccion, variables. cbn [for_].
  paso_prediccion futuro_temperatura. paso_prediccion futuro_humedad.
  paso_prediccion futuro_vibracion. paso_prediccion futuro_corriente.
  paso_prediccion futuro_voltaje. reflexivity.
Qed.

Lemma estadisticas_metricas df :
  (∀ var, var ∈ variables → ∃ col, columns df !! var = Some (NumCol col)) →
  estadisticas df = (metricas df, Returned tt).
Proof.
  intros Hcols. unfold estadisticas, metricas.
  assert (Hall : ∀ p : nat * string, p ∈ enumerate variables → p.2 ∈ variables).
  { intros [i v] Hin. unfold enumerate in Hin. by apply elem_of_zip_r in Hin. }
  revert Hall. generalize (enumerate variables). intros ps.
  induction ps as [|[i var] ps IH]; intros Hall; cbn [for_]; [done|].
  destruct (Hcols var) as (col & Hcol); [apply (Hall (i, var)); left|].
  rewrite (series_of_column _ _ _ Hcol), bind_ret, bind_emit.
  rewrite IH by (intros p Hp; apply Hall; by right).
  cbn [fmap list_fmap log outcome fst snd]. do 2 f_equal.
  unfold metrica, num_col. cbn [fst snd]. by rewrite Hcol.
Qed.

Lemma render_simulados : render datos_simulados = (pagina_simulada, Returned tt).
Proof.
  unfold render. fold tiempo_simulado.
  assert (Hest : estadisticas tiempo_simulado = (metricas tiempo_simulado, Returned tt)).
  { apply estadisticas_metricas. intros var Hvar. unfold variables in Hvar.
    repeat (apply elem_of_cons in Hvar as [->|Hvar]; [by eexists|]).
    by apply elem_of_nil in Hvar. }
  rewrite Hest, deteccion_simulados.
  cbn [mbind Script_bind emit fst snd app reporte].
  rewrite prediccion_simulados. reflexivity.
Qed.
End simulados.

(* ================================================================== *)
(** * The four shapes of a run                                        *)
(* ================================================================== *)

Section main_facts.
Implicit Types (w : World) (e : Exc) (q : string).

Lemma main_eq w :
  main w =
  (header;;
   query_api ← conexion w (getenv w "INFLUX_URL") (getenv w "INFLUX_TOKEN")
                        (getenv w "INFLUX_ORG");
   df ← consulta query_api (sent w);
   render df).
Proof. reflexivity. Qed.

Lemma conexion_ok w api :
  connect w = inr api →
  conexion w (getenv w "INFLUX_URL") (getenv w "INFLUX_TOKEN") (getenv w "INFLUX_ORG")
  = ([StSuccess "✅ Conexión exitosa a InfluxDB"], Returned (Some api)).
Proof. unfold connect, conexion. by intros ->. Qed.

Lemma conexion_fail w e :
  connect w = inl e →
  conexion w (getenv w "INFLUX_URL") (getenv w "INFLUX_TOKEN") (getenv w "INFLUX_ORG")
  = ([StError ("❌ Error al conectar con InfluxDB: " +:+ str e)], Returned None).
Proof. unfold connect, conexion. by intros ->. Qed.

Lemma consulta_unbound q :
  consulta None q =
  ([StError ("❌ Error al consultar datos: " +:+ str (NameError "query_api"))],
   Stopped).
Proof. reflexivity. Qed.

Lemma consulta_raises (api : string → Exc + DataFrame) q e :
  api q = inl e →
  consulta (Some api) q =
  ([QuerySent q; StError ("❌ Error al consultar datos: " +:+ str e)], Stopped).
Proof. unfold consulta. cbn. by intros ->. Qed.

Lemma consulta_empty (api : string → Exc + DataFrame) q tables :
  api q = inr tables → len tables = 0 →
  consulta (Some api) q =
  ([QuerySent q;
    StWarning "⚠️ No se encontraron datos en InfluxDB. Se usarán datos simulados."],
   Returned datos_simulados).
Proof. unfold consulta. cbn. intros -> H. cbn. by rewrite decide_True. Qed.

Lemma consulta_rows (api : string → Exc + DataFrame) q tables :
  api q = inr tables → len tables ≠ 0 →
  consulta (Some api) q = ([QuerySent q], Returned tables).
Proof. unfold consulta. cbn. intros -> H. cbn. by rewrite decide_False. Qed.

(** The four ways a run can go. *)
Lemma main_connection_fails w e :
  connect w = inl e →
  main w =
  (log header ++
   [StError ("❌ Error al conectar con InfluxDB: " +:+ str e);
    StError ("❌ Error al consultar datos: " +:+ str (NameError "query_api"))],
   Stopped).
Proof. intros H. by rewrite main_eq, (conexion_fail _ _ H). Qed.

Lemma main_query_raises w api e :
  connect w = inr api → api (sent w) = inl e →
  main w =
  (log header ++
   [StSuccess "✅ Conexión exitosa a InfluxDB"; QuerySent (sent w);
    StError ("❌ Error al consultar datos: " +:+ str e)],
   Stopped).
Proof.
  intros H1 H2. rewrite main_eq, (conexion_ok _ _ H1).
  cbn [mbind Script_bind header emit fst snd app].
  by rewrite (consulta_raises _ _ _ H2).
Qed.

Lemma main_rows w api tables :
  connect w = inr api → api (sent w) = inr tables →
  main w =
  (log header ++
   [StSuccess "✅ Conexión exitosa a InfluxDB"; QuerySent (sent w)] ++
   (if decide (len tables = 0)
    then StWarning "⚠️ No se encontraron datos en InfluxDB. Se usarán datos simulados."
         :: log (render datos_simulados)
    else log (render tables)),
   outcome (render (if decide (len tables = 0) then datos_simulados else tables))).
Proof.
  intros H1 H2. rewrite main_eq, (conexion_ok _ _ H1).
  cbn [mbind Script_bind header emit fst snd app].
  destruct (decide (len tables = 0)) as [H0|H0].
  - rewrite (consulta_empty _ _ _ H2 H0), bind_pair. reflexivity.
  - rewrite (consulta_rows _ _ _ H2 H0), bind_pair. reflexivity.
Qed.
End main_facts.

(* ================================================================== *)
(** * Steps that render nothing                                       *)
(* ================================================================== *)

Section silent_steps.
Lemma log_bind_nil {A B} (m : Script A) (k : A → Script B) :
  log m = [] → (∀ a, log (k a) = []) → log (m ≫= k) = [].
Proof.
  intros Hm Hk. rewrite log_bind, Hm. destruct (outcome m); [|done..].
  simpl. apply Hk.
Qed.

Lemma log_for_nil {A S} (xs : list A) (body : A → S → Script S) s :
  (∀ x s', log (body x s') = []) → log (for_ xs body s) = [].
Proof.
  intros Hb. revert s. induction xs as [|x xs IH]; intros s; cbn [for_]; [done|].
  by apply log_bind_nil.
Qed.

Lemma log_getitem df k : log (getitem df k) = [].
Proof. unfold getitem. by destruct (columns df !! k). Qed.

Lemma log_numeric c : log (numeric c) = [].
Proof. by destruct c. Qed.

Lemma log_series df k : log (getitem df k ≫= numeric) = [].
Proof. apply log_bind_nil; [apply log_getitem|apply log_numeric]. Qed.

Lemma log_row_get df i k : log (row_get df i k) = [].
Proof.
  unfold row_get. apply log_bind_nil; [apply log_getitem|].
  intros c. by destruct (cell_at c i).
Qed.

Lemma log_registrar df var i an : log (registrar df var i an) = [].
Proof.
  unfold registrar. apply log_bind_nil; [apply log_row_get|]. intros f.
  apply log_bind_nil; [apply log_row_get|]. done.
Qed.

Lemma log_detectar var s : log (detectar var s) = [].
Proof.
  destruct s as [df an]. unfold detectar.
  apply log_bind_nil; [apply log_series|]. intros col.
  apply log_bind_nil; [|done].
  apply log_for_nil. intros. apply log_registrar.
Qed.

Lemma log_deteccion df : log (deteccion df) = [].
Proof. apply log_for_nil. intros. apply log_detectar. Qed.

Lemma log_predecir df var ps : log (predecir df var ps) = [].
Proof.
  unfold predecir. apply log_bind_nil; [apply log_series|]. intros y.
  by destruct (LinearRegression.fit (range (len df)) y).
Qed.

Lemma log_prediccion df : log (prediccion df) = [].
Proof. apply log_for_nil. intros. apply log_predecir. Qed.

(** Below the query the script talks to the page only. *)
Lemma render_no_query df : Forall (λ ev, is_query ev = false) (log (render df)).
Proof.
  unfold render.
  repeat (apply Forall_log_bind; [by repeat constructor|intros []]).
  apply Forall_log_bind.
  { apply Forall_log_for. intros [i var] []. 
    apply Forall_log_bind; [by rewrite log_series|]. intros col.
    by repeat constructor. }
  intros [].
  apply Forall_log_bind; [by repeat constructor|intros []].
  apply Forall_log_bind; [by rewrite log_deteccion|]. intros [df' an].
  apply Forall_log_bind.
  { destruct an; by repeat constructor. }
  intros [].
  apply Forall_log_bind; [by repeat constructor|intros []].
  apply Forall_log_bind; [by rewrite log_prediccion|]. intros ps.
  apply Forall_log_bind; [by repeat constructor|intros []].
  apply Forall_log_bind.
  { apply Forall_log_for. intros [var pred] []. by repeat constructor. }
  intros [].
  apply Forall_log_bind; [by repeat constructor|intros []].
  by repeat constructor.
Qed.

Lemma filter_none {A} (P : A → Prop) `{∀ x, Decision (P x)} (l : list A) :
  Forall (λ x, ¬ P x) l → filter P l = [].
Proof.
  induction 1 as [|x l Hx _ IH]; [done|].
  by rewrite filter_cons_False.
Qed.
End silent_steps.

(* ================================================================== *)
(** * Frames used as examples                                         *)
(* ================================================================== *)

Section frames.
Lemma lecturas_tiempo_simulado : lecturas tiempo_simulado.
Proof.
  split_and!.
  - change (0 < 10)%nat. lia.
  - apply Forall_forall. repeat constructor; by eexists.
  - by eexists.
Qed.

Lemma lecturas_simulado_constante : lecturas simulado_constante.
Proof.
  split_and!.
  - change (0 < 10)%nat. lia.
  - apply Forall_forall. repeat constructor; by eexists.
  - by eexists.
Qed.

(** The flag column of a variable after a completed anomaly loop. *)
Lemma deteccion_flags df var :
  lecturas df → var ∈ variables →
  ∃ df' an col,
    deteccion df = ([], Returned (df', an)) ∧
    columns df !! var = Some (NumCol col) ∧
    columns df' !! anom_label var = Some (BoolCol (anomalo col)).
Proof.
  intros Hl Hvar. destruct (deteccion_total df Hl) as (df' & an & Hdet).
  destruct (deteccion_returned _ _ _ _ Hdet) as (_ & _ & _ & Hflags & _).
  destruct (Hflags var Hvar) as (col & Hcol & Hflag).
  by exists df', an, col.
Qed.

Lemma pico_flagged : anomalo columna_con_pico !! 9%nat = Some true.
Proof.
  apply anomalo_lookup_true.
  exists 10%R, 1%R, (sqrt 10). split_and!.
  - reflexivity.
  - unfold columna_con_pico. simpl replicate. simpl app.
    rewrite mean_cons. f_equal. unfold Rsum. simpl. lra.
  - unfold columna_con_pico. simpl replicate. simpl app.
    rewrite std_cons2, mean_cons. simpl mbind. f_equal. f_equal.
    unfold sqdev, Rsum. simpl. lra.
  - assert (sqrt 10 < 4)%R; [|unfold Rabs; destruct (Rcase_abs _); lra].
    replace 4%R with (sqrt (4 * 4)) by (apply sqrt_square; lra).
    apply sqrt_lt_1; lra.
Qed.
End frames.

(* ================================================================== *)
(** * The anomaly test in binary64                                    *)
(* ================================================================== *)

Section binary64_facts.
Import Binary64.
Implicit Types (x c v media s : spec_float) (col : list spec_float).







Lemma sub_diag x : sub x x = zero ∨ sub x x = nan.
Proof.
  destruct x as [s|s| |s m e]; simpl.
  - left. by destruct s.
  - right. by destruct s.
  - by right.
  - left. unfold sub, SFsub. rewrite Z.sub_diag. reflexivity.
Qed.














End binary64_facts.

Section limite.
Local Open Scope R_scope.



End limite.

(* ================================================================== *)
(** * The embedding on small inputs                                   *)
(* ================================================================== *)

Example capitalize_temperatura : capitalize "temperatura" = "Temperatura".
Proof. reflexivity. Qed.

Example fechas_octubre :
  fechas = (λ d, Date 2025 10 d) <$> [1; 2; 3; 4; 5; 6; 7; 8; 9; 10].
Proof. reflexivity. Qed.

Example date_range_leap_february :
  date_range (Date 2024 2 28) 3 = [Date 2024 2 28; Date 2024 2 29; Date 2024 3 1].
Proof. reflexivity. Qed.

Example query_without_bucket :
  query None =
  nl +:+ "from(bucket: " +:+ dq +:+ "None" +:+ dq +:+ ")" +:+ flux_window_and_fields.
Proof. reflexivity. Qed.

(** A single row is never flagged: its standard deviation is NaN. *)
Example anomalo_single_row (x : R) : anomalo [x] = [false].
Proof. reflexivity. Qed.

Example main_sin_conexion :
  main mundo_sin_conexion =
  ([StTitle "📊 Monitoreo Predictivo con InfluxDB"; StWrite intro;
    StError "❌ Error al conectar con InfluxDB: invalid url";
    StError "❌ Error al consultar datos: name 'query_api' is not defined"],
   Stopped).
Proof. reflexivity. Qed.

Example main_vacio_returns : outcome (main mundo_vacio) = Returned tt.
Proof.
  rewrite (main_rows mundo_vacio (λ _, inr (Frame 0 ∅)) (Frame 0 ∅) eq_refl eq_refl).
  destruct (decide (len (Frame 0 ∅) = 0)) as [_|H]; [|by destruct H].
  by rewrite render_simulados.
Qed.

Example query_with_bucket :
  sent mundo_consulta_falla =
  nl +:+ "from(bucket: " +:+ dq +:+ "planta" +:+ dq +:+ ")" +:+ flux_window_and_fields.
Proof. reflexivity. Qed.

(** With an empty result the sample data is shown and the run reaches its
    end. *)
Example main_vacio_fallback : fallback_rendered mundo_vacio.
Proof.
  unfold fallback_rendered.
  rewrite (main_rows mundo_vacio (λ _, inr (Frame 0 ∅)) (Frame 0 ∅) eq_refl eq_refl).
  destruct (decide (len (Frame 0 ∅) = 0)) as [_|H]; [|by destruct H].
  rewrite render_simulados. split; [|reflexivity].
  unfold log, fst. apply elem_of_app. right. do 3 right. right. left.
Qed.

Example anomalo64_pico :
  Binary64.anomalo columna_con_pico64 = replicate 6 false ++ [true].
Proof. vm_compute. reflexivity. Qed.

Example anomalo64_missing_reading :
  Binary64.anomalo [Binary64.of_Z 1; S754_nan; Binary64.of_Z 1; Binary64.of_Z 1;
                    Binary64.of_Z 1; Binary64.of_Z 1; Binary64.of_Z 10]
  = [false; false; false; false; false; false; true].
Proof. vm_compute. reflexivity. Qed.

Example dec_voltaje : Binary64.dec 2303 1 = S754_finite false 8102960892058010 (-45).
Proof. vm_compute. reflexivity. Qed.

(* ================================================================== *)
(** * The claims of the specification                                 *)
(* ================================================================== *)

(** C5: if executing the query raises, the error is shown and the run
    stops: the log ends with the error message, the outcome is the one of
    [st.stop()], and no table of readings, metric, anomaly report or
    prediction is rendered. *)
Theorem C5_query_exception_stops (w : World) (api : string → Exc + DataFrame) (e : Exc) :
  connect w = inr api → api (sent w) = inl e →
  main w =
    (log header ++
     [StSuccess "✅ Conexión exitosa a InfluxDB"; QuerySent (sent w);
      StError ("❌ Error al consultar datos: " +:+ str e)],
     Stopped) ∧
  Forall (λ ev, is_data ev = false) (log (main w)).
Proof.
  intros Hc Hq. rewrite (main_query_raises w api e Hc Hq). split; [done|].
  by repeat constructor.
Qed.

Lemma C5_witness :
  connect mundo_consulta_falla
    = inr (λ _, inl (Exception "ApiException" "(401) Unauthorized")) ∧
  main mundo_consulta_falla =
    (log header ++
     [StSuccess "✅ Conexión exitosa a InfluxDB"; QuerySent (sent mundo_consulta_falla);
      StError "❌ Error al consultar datos: (401) Unauthorized"],
     Stopped) ∧
  Forall (λ ev, is_data ev = false) (log (main mundo_consulta_falla)).
Proof.
  split; [reflexivity|].
  apply (C5_query_exception_stops mundo_consulta_falla
           (λ _, inl (Exception "ApiException" "(401) Unauthorized"))
           (Exception "ApiException" "(401) Unauthorized")); reflexivity.
Defined.

(** C4: when the query succeeds with zero rows, the warning is shown and the
    rest of the run is the page of the sample data: ten rows dated from
    2025-10-01, shown, summarised, checked for anomalies and extrapolated. *)
Theorem C4_empty_result_uses_fallback (w : World) (api : string → Exc + DataFrame)
    (tables : DataFrame) :
  connect w = inr api → api (sent w) = inr tables → len tables = 0 →
  main w =
    (log header ++
     [StSuccess "✅ Conexión exitosa a InfluxDB"; QuerySent (sent w);
      StWarning "⚠️ No se encontraron datos en InfluxDB. Se usarán datos simulados."]
     ++ log (render datos_simulados),
     Returned tt) ∧
  render datos_simulados = (pagina_simulada, Returned tt) ∧
  nrows datos_simulados = 10 ∧
  columns datos_simulados !! "_time" =
    Some (TimeCol ((λ d, Date 2025 10 d) <$> [1; 2; 3; 4; 5; 6; 7; 8; 9; 10])).
Proof.
  intros Hc Hq H0. rewrite (main_rows w api tables Hc Hq).
  rewrite !decide_True by done. rewrite render_simulados.
  split_and!; reflexivity.
Qed.

Lemma C4_witness :
  connect mundo_vacio = inr (λ _, inr (Frame 0 ∅)) ∧
  len (Frame 0 ∅) = 0 ∧
  main mundo_vacio =
    (log header ++
     [StSuccess "✅ Conexión exitosa a InfluxDB"; QuerySent (sent mundo_vacio);
      StWarning "⚠️ No se encontraron datos en InfluxDB. Se usarán datos simulados."]
     ++ log (render datos_simulados),
     Returned tt).
Proof.
  split; [reflexivity|]. split; [reflexivity|].
  apply (C4_empty_result_uses_fallback mundo_vacio (λ _, inr (Frame 0 ∅)) (Frame 0 ∅));
    reflexivity.
Defined.

(** C8: on the sample data the anomaly loop flags no row of any of the five
    variables and collects no report entry, so the page shows the success
    message and no anomaly table. *)
Theorem C8_fallback_has_no_anomalies :
  deteccion tiempo_simulado = ([], Returned (simulados_con_banderas, [])) ∧
  Forall (λ var, columns simulados_con_banderas !! anom_label var
                 = Some (BoolCol (replicate 10 false))) variables ∧
  reporte [] = ([StSuccess "✅ No se detectaron anomalías"], Returned tt) ∧
  StSuccess "✅ No se detectaron anomalías" ∈ log (render datos_simulados) ∧
  Forall (λ ev, ∀ rows, ev ≠ StTable rows) (log (render datos_simulados)).
Proof.
  split; [apply deteccion_simulados|]. split; [by repeat constructor|].
  split; [reflexivity|]. rewrite render_simulados.
  split.
  - unfold pagina_simulada, log, fst. do 2 (apply elem_of_app; right).
    right. left.
  - by repeat constructor.
Qed.

(** C2: the script does not do what the specification asks when the client
    constructor raises.  The handler of lines 32-33 shows the failure, but it
    neither substitutes the sample data nor binds [query_api]; the query
    block then fails on the unbound name before any query is sent, and its
    handler shows a second error and ends the run with [st.stop()].  The
    sample data is not shown and nothing is computed from it, whereas a
    query without rows does fall back to it ([main_vacio_fallback]). *)
Theorem C2_failed_connection_stops_without_fallback (w : World) (e : Exc) :
  connect w = inl e →
  main w =
    (log header ++
     [StError ("❌ Error al conectar con InfluxDB: " +:+ str e);
      StError "❌ Error al consultar datos: name 'query_api' is not defined"],
     Stopped) ∧
  Forall (λ ev, is_query ev = false ∧ is_data ev = false) (log (main w)) ∧
  ¬ fallback_rendered w.
Proof.
  intros Hc. rewrite (main_connection_fails w e Hc). split_and!.
  - reflexivity.
  - by repeat constructor.
  - intros [_ H]. rewrite (main_connection_fails w e Hc) in H. discriminate H.
Qed.

Lemma C2_witness :
  connect mundo_sin_conexion = inl (Exception "ValueError" "invalid url") ∧
  main mundo_sin_conexion =
    (log header ++
     [StError "❌ Error al conectar con InfluxDB: invalid url";
      StError "❌ Error al consultar datos: name 'query_api' is not defined"],
     Stopped) ∧
  Forall (λ ev, is_query ev = false ∧ is_data ev = false) (log (main mundo_sin_conexion)) ∧
  ¬ fallback_rendered mundo_sin_conexion.
Proof.
  split; [reflexivity|].
  apply (C2_failed_connection_stops_without_fallback mundo_sin_conexion
           (Exception "ValueError" "invalid url")). reflexivity.
Defined.

(** C6: a run sends at most one query, exactly one when the connection
    succeeds, whatever the URL, the token and the organisation are.  Its text
    is the fixed template with the seven-day window and the five fields; the
    only part that varies is the bucket name read from the environment, or
    the text None when the variable is not set. *)
Theorem C6_query_is_fixed_template (w : World) :
  filter (λ ev, is_query ev = true) (log (main w)) =
    match connect w with
    | inr _ => [QuerySent (sent w)]
    | inl _ => []
    end ∧
  sent w =
    nl +:+ "from(bucket: " +:+ dq +:+
      match getenv w "INFLUX_BUCKET" with
      | Some bucket => bucket
      | None => "None"
      end +:+ dq +:+ ")" +:+ flux_window_and_fields.
Proof.
  split; [|unfold sent; by destruct (getenv w "INFLUX_BUCKET")].
  destruct (connect w) as [e|api] eqn:Hc.
  - by rewrite (main_connection_fails w e Hc).
  - destruct (api (sent w)) as [e|tables] eqn:Hq.
    + by rewrite (main_query_raises w api e Hc Hq).
    + rewrite (main_rows w api tables Hc Hq). unfold log at 1, fst.
      assert (Hnone : ∀ df, filter (λ ev, is_query ev = true) (log (render df)) = []).
      { intros df. apply filter_none. eapply Forall_impl; [apply render_no_query|].
        simpl. intros ev ->. done. }
      destruct (decide (len tables = 0)); rewrite !filter_app.
      * rewrite (filter_cons_False _ (StWarning _)) by done. by rewrite Hnone.
      * by rewrite Hnone.
Qed.






(** C10: a completed anomaly loop leaves the number of rows, the timestamp
    column, the five sensor columns and every other column that is not a flag
    column as they were; it binds the five flag columns to boolean columns;
    and each entry of the report holds the timestamp and the value of a row
    of the frame it was given. *)
Theorem C10_detection_only_adds_flags (df df' : DataFrame) (an : list Anomalia) :
  outcome (deteccion df) = Returned (df', an) →
  nrows df' = nrows df ∧
  Forall (λ k, columns df' !! k = columns df !! k) ("Tiempo" :: variables) ∧
  (∀ k, Forall (λ v, k ≠ anom_label v) variables →
        columns df' !! k = columns df !! k) ∧
  Forall (λ v, ∃ flags, columns df' !! anom_label v = Some (BoolCol flags)) variables ∧
  Forall (λ a, ∃ i, copia df (VariableName a) i a) an.
Proof.
  intros Hout.
  assert (Hdet : deteccion df = (log (deteccion df), Returned (df', an))).
  { rewrite <- Hout. apply script_eta. }
  apply deteccion_returned in Hdet as (_ & Hn & Hframe & Hflags & Han).
  assert (Hother : ∀ k, Forall (λ v, k ≠ anom_label v) variables →
                        columns df' !! k = columns df !! k).
  { intros k Hk. apply Hframe. by apply Forall_forall. }
  split_and!; try done.
  - apply Forall_forall. intros k Hk. apply Hother. apply Forall_forall.
    intros v _ ->. apply elem_of_cons in Hk as [Hk|Hk].
    + by eapply Tiempo_not_flag.
    + by eapply variables_not_flag.
  - apply Forall_forall. intros v Hv. destruct (Hflags v Hv) as (col & _ & ->).
    by eexists.
  - eapply Forall_impl; [exact Han|]. by intros a [_ H].
Qed.

Lemma C10_witness :
  outcome (deteccion tiempo_simulado) = Returned (simulados_con_banderas, []) ∧
  nrows simulados_con_banderas = nrows tiempo_simulado ∧
  Forall (λ k, columns simulados_con_banderas !! k = columns tiempo_simulado !! k)
         ("Tiempo" :: variables) ∧
  (∀ k, Forall (λ v, k ≠ anom_label v) variables →
        columns simulados_con_banderas !! k = columns tiempo_simulado !! k) ∧
  Forall (λ v, ∃ flags,
            columns simulados_con_banderas !! anom_label v = Some (BoolCol flags))
         variables ∧
  Forall (λ a, ∃ i, copia tiempo_simulado (VariableName a) i a) [].
Proof.
  assert (H : outcome (deteccion tiempo_simulado) = Returned (simulados_con_banderas, [])).
  { rewrite deteccion_simulados. reflexivity. }
  split; [exact H|].
  apply (C10_detection_only_adds_flags tiempo_simulado simulados_con_banderas []).
  exact H.
Defined.

Section per_variable.
Implicit Types (df : DataFrame) (v : string) (ps : list (string * R)).

(** The entries of [predicciones] for one variable. *)
Lemma prediccion_elem df ps v r :
  prediccion df = ([], Returned ps) → v ∈ variables →
  (v, r) ∈ ps ↔
  ∃ y, columns df !! v = Some (NumCol y) ∧ futuro (len df) y = Some r.
Proof.
  intros [_ Hall]%prediccion_returned Hv. split.
  - intros [i Hi]%list_elem_of_lookup.
    destruct (Forall2_lookup_r _ _ _ _ _ Hall Hi) as (var & _ & Hname & y & Hy & Hf).
    simpl in Hname, Hf. subst var. by exists y.
  - intros (y & Hy & Hf). apply list_elem_of_lookup in Hv as [i Hi].
    destruct (Forall2_lookup_l _ _ _ _ _ Hall Hi) as ([v' r'] & Hp & Hname & y' & Hy' & Hf').
    simpl in Hname, Hf'. subst v'. assert (y' = y) as -> by congruence.
    assert (r' = r) as -> by congruence. by eapply list_elem_of_lookup_2.
Qed.

(** What the page computes for one variable depends on the number of rows
    and on that variable's column only. *)
Lemma variable_results df v :
  lecturas df → v ∈ variables →
  ∃ df' an ps col r,
    deteccion df = ([], Returned (df', an)) ∧
    prediccion df' = ([], Returned ps) ∧
    columns df !! v = Some (NumCol col) ∧
    columns df' !! anom_label v = Some (BoolCol (anomalo col)) ∧
    futuro (nrows df) col = Some r ∧
    ∀ r', (v, r') ∈ ps ↔ r' = r.
Proof.
  intros Hl Hv.
  destruct (deteccion_flags df v Hl Hv) as (df' & an & col & Hdet & Hcol & Hflag).
  pose proof (deteccion_preserves_lecturas _ _ _ _ Hdet Hl) as Hl'.
  destruct (prediccion_total df' Hl') as [ps Hps].
  destruct (deteccion_returned _ _ _ _ Hdet) as (_ & Hn & Hframe & _).
  assert (Hcol' : columns df' !! v = Some (NumCol col)).
  { rewrite Hframe; [done|]. intros v' _ ->. by eapply variables_not_flag. }
  destruct Hl as (Hpos & Hcols & _).
  destruct (Hcols v Hv) as (col0 & Hcol0 & Hlen).
  assert (col0 = col) as -> by congruence.
  destruct (futuro_is_Some (nrows df) col Hlen Hpos) as [r Hr].
  exists df', an, ps, col, r. split_and!; try done.
  intros r'. rewrite (prediccion_elem df' ps v r' Hps Hv). unfold len. rewrite Hn.
  split.
  - intros (y & Hy & Hf). congruence.
  - intros ->. by exists col.
Qed.
End per_variable.

(** C7, as the specification states it, fails: the sample data and the
    sample data with text in place of the temperature readings have the same
    number of rows and agree on the voltage column, but only the first run
    computes flags and a prediction for the voltage; the second ends in a
    [TypeError] at the first statistic, before any flag or prediction. *)
Lemma C7_counterexample :
  nrows datos_simulados = nrows datos_con_texto ∧
  columns datos_simulados !! "voltaje" = columns datos_con_texto !! "voltaje" ∧
  render datos_simulados = (pagina_simulada, Returned tt) ∧
  StWritePred "Voltaje" (7609 / 33) ∈ pagina_simulada ∧
  render datos_con_texto =
    ([StSubheader "📋 Datos obtenidos";
      StDataframe simulado_con_texto;
      StSubheader "📈 Estadísticas Generales"],
     Raised (TypeError "not a numeric column")) ∧
  deteccion simulado_con_texto = ([], Raised (TypeError "not a numeric column")) ∧
  prediccion simulado_con_texto = ([], Raised (TypeError "not a numeric column")).
Proof.
  split; [reflexivity|]. split; [reflexivity|]. split; [apply render_simulados|].
  split.
  { unfold pagina_simulada. do 2 (apply elem_of_app; right). do 8 right. left. }
  split; [reflexivity|]. split; reflexivity.
Qed.

(** C7, amended: for two frames with the same number of rows that agree on
    the column of a variable, and on which the anomaly loop and the
    prediction loop complete, the runs compute the same flag column and the
    same predicted value for that variable, whatever the other columns
    hold. *)
Theorem C7_independence_of_completed_runs (df1 df2 df1' df2' : DataFrame)
    (an1 an2 : list Anomalia) (ps1 ps2 : list (string * R)) (v : string) :
  nrows df1 = nrows df2 → v ∈ variables →
  columns df1 !! v = columns df2 !! v →
  outcome (deteccion df1) = Returned (df1', an1) →
  outcome (prediccion df1') = Returned ps1 →
  outcome (deteccion df2) = Returned (df2', an2) →
  outcome (prediccion df2') = Returned ps2 →
  ∃ flags r,
    columns df1' !! anom_label v = Some (BoolCol flags) ∧
    columns df2' !! anom_label v = Some (BoolCol flags) ∧
    ∀ r', ((v, r') ∈ ps1 ↔ r' = r) ∧ ((v, r') ∈ ps2 ↔ r' = r).
Proof.
  intros Hn Hv Heq Hd1 Hp1 Hd2 Hp2.
  assert (Hdet1 : deteccion df1 = (log (deteccion df1), Returned (df1', an1)))
    by (rewrite <- Hd1; apply script_eta).
  assert (Hdet2 : deteccion df2 = (log (deteccion df2), Returned (df2', an2)))
    by (rewrite <- Hd2; apply script_eta).
  assert (Hpre1 : prediccion df1' = (log (prediccion df1'), Returned ps1))
    by (rewrite <- Hp1; apply script_eta).
  assert (Hpre2 : prediccion df2' = (log (prediccion df2'), Returned ps2))
    by (rewrite <- Hp2; apply script_eta).
  apply deteccion_returned in Hdet1 as (_ & Hn1 & Hf1 & Hfl1 & _).
  apply deteccion_returned in Hdet2 as (_ & Hn2 & Hf2 & Hfl2 & _).
  destruct (Hfl1 v Hv) as (col & Hcol1 & Hflag1).
  destruct (Hfl2 v Hv) as (col2 & Hcol2 & Hflag2).
  assert (col2 = col) as -> by congruence.
  assert (Hk1 : columns df1' !! v = Some (NumCol col)).
  { rewrite Hf1; [done|]. intros v' _ ->. by eapply variables_not_flag. }
  assert (Hk2 : columns df2' !! v = Some (NumCol col)).
  { rewrite Hf2; [done|]. intros v' _ ->. by eapply variables_not_flag. }
  pose proof (proj1 (prediccion_returned _ _ _ Hpre1)) as Hl1.
  pose proof (proj1 (prediccion_returned _ _ _ Hpre2)) as Hl2.
  rewrite Hl1 in Hpre1. rewrite Hl2 in Hpre2.
  assert (Hr : ∃ r, futuro (nrows df1) col = Some r).
  { destruct (prediccion_returned _ _ _ Hpre1) as [_ Hall].
    apply list_elem_of_lookup in Hv as [i Hi].
    destruct (Forall2_lookup_l _ _ _ _ _ Hall Hi) as (p & _ & _ & y & Hy & Hf).
    assert (y = col) as -> by congruence. exists p.2. unfold len in Hf. by rewrite <- Hn1. }
  destruct Hr as [r Hr].
  exists (anomalo col), r. split; [done|]. split; [done|].
  intros r'. split.
  - rewrite (prediccion_elem df1' ps1 v r' Hpre1 Hv). unfold len. rewrite Hn1. split.
    + intros (y & Hy & Hf). congruence.
    + intros ->. by exists col.
  - rewrite (prediccion_elem df2' ps2 v r' Hpre2 Hv). unfold len. rewrite Hn2, <- Hn. split.
    + intros (y & Hy & Hf). congruence.
    + intros ->. by exists col.
Qed.

Lemma C7_witness :
  ∃ df1' an1 ps1 df2' an2 ps2,
    nrows tiempo_simulado = nrows simulado_constante ∧
    "temperatura" ∈ variables ∧
    columns tiempo_simulado !! "temperatura" = columns simulado_constante !! "temperatura" ∧
    columns tiempo_simulado !! "voltaje" ≠ columns simulado_constante !! "voltaje" ∧
    outcome (deteccion tiempo_simulado) = Returned (df1', an1) ∧
    outcome (prediccion df1') = Returned ps1 ∧
    outcome (deteccion simulado_constante) = Returned (df2', an2) ∧
    outcome (prediccion df2') = Returned ps2 ∧
    ∃ flags r,
      columns df1' !! anom_label "temperatura" = Some (BoolCol flags) ∧
      columns df2' !! anom_label "temperatura" = Some (BoolCol flags) ∧
      ∀ r', (("temperatura", r') ∈ ps1 ↔ r' = r) ∧ (("temperatura", r') ∈ ps2 ↔ r' = r).
Proof.
  assert (Hin : "temperatura" ∈ variables) by left.
  destruct (variable_results tiempo_simulado "temperatura" lecturas_tiempo_simulado Hin)
    as (df1' & an1 & ps1 & _ & _ & Hd1 & Hp1 & _).
  destruct (variable_results simulado_constante "temperatura"
              lecturas_simulado_constante Hin)
    as (df2' & an2 & ps2 & _ & _ & Hd2 & Hp2 & _).
  assert (Ho1 : outcome (deteccion tiempo_simulado) = Returned (df1', an1)) by by rewrite Hd1.
  assert (Ho2 : outcome (prediccion df1') = Returned ps1) by by rewrite Hp1.
  assert (Ho3 : outcome (deteccion simulado_constante) = Returned (df2', an2)) by by rewrite Hd2.
  assert (Ho4 : outcome (prediccion df2') = Returned ps2) by by rewrite Hp2.
  exists df1', an1, ps1, df2', an2, ps2.
  split; [reflexivity|]. split; [exact Hin|]. split; [reflexivity|].
  split.
  { intros H. assert (Hx : (230 : R) = 231%R); [|lra].
    change (Some (NumCol [230; 231; 229; 228; 232; 233; 230; 229; 231; 230]%R)
            = Some (NumCol (replicate 10 230%R))) in H.
    by injection H. }
  split; [exact Ho1|]. split; [exact Ho2|]. split; [exact Ho3|]. split; [exact Ho4|].
  apply (C7_independence_of_completed_runs tiempo_simulado simulado_constante
           df1' df2' an1 an2 ps1 ps2 "temperatura");
    [reflexivity|exact Hin|reflexivity|exact Ho1|exact Ho2|exact Ho3|exact Ho4].
Defined.

Section off_by_one.
Import LinearRegression.
Local Open Scope R_scope.

Lemma fit_temperatura :
  fit (range 10) [28; 29; 30; 32; 33; 31; 30; 29; 28; 27]
  = Some (Model (- 29 / 165) (1677 / 55)).
Proof.
  rewrite range_10. unfold fit.
  rewrite decide_True by reflexivity.
  rewrite !mean_cons. cbn [mbind option_bind].
  unfold centre, dot, Rsum. cbn [map zip_with foldr length].
  rewrite !INR_10. rewrite decide_False by lra.
  f_equal. f_equal; field.
Qed.

Lemma range_10_spread :
  mean (range 10) = Some 4.5 ∧ 0 < dot (centre 4.5 (range 10)) (centre 4.5 (range 10)).
Proof.
  rewrite range_10. split.
  - rewrite mean_cons. f_equal. unfold Rsum. cbn [foldr length]. rewrite INR_10. lra.
  - unfold centre, dot, Rsum. cbn [map zip_with foldr]. lra.
Qed.
End off_by_one.

(** C1 on the sample data: the line fitted to the temperature column against
    the row indices 0..9 is the only ordinary least-squares line; at row
    index 10, one step past the last row, it gives 431/15, but the value the
    script puts under "next reading" is the line at 11, which is 4712/165. *)
Theorem C1_prediction_is_evaluated_at_n_plus_1 :
  let y := [28; 29; 30; 32; 33; 31; 30; 29; 28; 27]%R in
  columns simulados_con_banderas !! "temperatura" = Some (NumCol y) ∧
  len simulados_con_banderas = 10 ∧
  ∃ modelo ps,
    LinearRegression.fit (range 10) y = Some modelo ∧
    ols_line (LinearRegression.coef_ modelo) (LinearRegression.intercept_ modelo)
             (range 10) y ∧
    (∀ a b, ols_line a b (range 10) y →
            a = LinearRegression.coef_ modelo ∧ b = LinearRegression.intercept_ modelo) ∧
    prediccion simulados_con_banderas = ([], Returned ps) ∧
    (∀ r, ("temperatura", r) ∈ ps ↔ r = LinearRegression.predict modelo (INR 11)) ∧
    LinearRegression.predict modelo (INR 11) = (4712 / 165)%R ∧
    LinearRegression.predict modelo (INR 10) = (431 / 15)%R ∧
    LinearRegression.predict modelo (INR 11) ≠ LinearRegression.predict modelo (INR 10).
Proof.
  intros y. split; [reflexivity|]. split; [reflexivity|].
  exists (LinearRegression.Model (- 29 / 165) (1677 / 55)), predicciones_simuladas.
  assert (H11 : LinearRegression.predict (LinearRegression.Model (- 29 / 165) (1677 / 55))
                  (INR 11) = (4712 / 165)%R).
  { unfold LinearRegression.predict. simpl. lra. }
  assert (H10 : LinearRegression.predict (LinearRegression.Model (- 29 / 165) (1677 / 55))
                  (INR 10) = (431 / 15)%R).
  { unfold LinearRegression.predict. simpl. lra. }
  split_and!.
  - apply fit_temperatura.
  - apply fit_least_squares, fit_temperatura.
  - intros a b Hols. destruct range_10_spread as [Hm Hpos].
    by apply (ols_line_unique _ _ _ _ a b fit_temperatura Hm Hpos).
  - apply prediccion_simulados.
  - intros r. rewrite H11.
    rewrite (prediccion_elem simulados_con_banderas predicciones_simuladas
               "temperatura" r prediccion_simulados) by left.
    split.
    + intros (y' & Hy & Hf).
      assert (y' = y) as -> by (change (Some (NumCol y) = Some (NumCol y')) in Hy;
                                 by injection Hy).
      change (len simulados_con_banderas) with 10%nat in Hf.
      unfold y in Hf. rewrite futuro_temperatura in Hf. by injection Hf.
    + intros ->. exists y. split; [reflexivity|]. apply futuro_temperatura.
  - exact H11.
  - exact H10.
  - rewrite H11, H10. lra.
Qed.

(* ================================================================== *)
(** * Further properties of the script                                *)
(* ================================================================== *)

Section closed_forms.
Implicit Types (df : DataFrame) (var k : string) (an : list Anomalia).

Lemma entrada_ext df df' var i :
  columns df !! "Tiempo" = columns df' !! "Tiempo" →
  columns df !! var = columns df' !! var →
  entrada df var i = entrada df' var i.
Proof. intros Ht Hv. unfold entrada, cell. by rewrite Ht, Hv. Qed.

Lemma num_col_of_column df var col :
  columns df !! var = Some (NumCol col) → num_col df var = col.
Proof. intros H. unfold num_col. by rewrite H. Qed.

Lemma filas_closed df var idxs an :
  Forall (λ i, is_Some (entrada df var i)) idxs →
  for_ idxs (registrar df var) an = ([], Returned (an ++ omap (entrada df var) idxs)).
Proof.
intros H. revert an. induction H as [|i idxs [a Ha] _ IH]; intros an; cbn [for_].
- by rewrite app_nil_r.
- unfold entrada in Ha.
  destruct (cell df "Tiempo" i) as [f|] eqn:Hf; [|done].
  destruct (cell df var i) as [v|] eqn:Hv; [|done].
  rewrite (registrar_of_cells _ _ _ _ _ _ Hf Hv), bind_ret, IH.
  cbn [omap list_omap]. unfold entrada at 2. rewrite Hf, Hv. simpl.
  by rewrite <- app_assoc.
Qed.

Lemma entrada_is_Some df var i col t :
  columns df !! var = Some (NumCol col) → columns df !! "Tiempo" = Some t →
  (i < length col)%nat → (length col ≤ col_length t)%nat →
  is_Some (entrada df var i).
Proof.
intros Hcol Ht Hi Hlen. unfold entrada, cell. rewrite Ht, Hcol.
destruct (cell_at_is_Some t i) as [f Hf]; [lia|].
destruct (cell_at_is_Some (NumCol col) i) as [v Hv]; [simpl; lia|].
simpl. rewrite Hf. simpl. simpl in Hv. rewrite Hv. by eexists.
Qed.

Lemma detectar_closed var df an col t :
  columns df !! var = Some (NumCol col) →
  columns df !! "Tiempo" = Some t → (length col ≤ col_length t)%nat →
  (∀ v, anom_label v ≠ var) →
  detectar var (df, an) =
  ([], Returned (setitem df (anom_label var) (BoolCol (anomalo col)),
                 an ++ omap (entrada df var) (where_true (anomalo col)))).
Proof.
intros Hcol Ht Hlen Hlab. unfold detectar.
rewrite (series_of_column _ _ _ Hcol), bind_ret.
set (df1 := setitem df (anom_label var) (BoolCol (anomalo col))).
assert (Hext : ∀ i, entrada df1 var i = entrada df var i).
{ intros i. apply entrada_ext; unfold df1; simpl.
  - by rewrite lookup_insert_ne by apply Tiempo_not_flag.
  - by rewrite lookup_insert_ne by apply Hlab. }
rewrite filas_closed.
- rewrite bind_pair. cbn [log outcome fst snd app mret Script_ret].
  do 4 f_equal. apply list_omap_ext.
  apply Forall2_same_length_lookup. split; [done|].
  intros i x y Hx Hy. assert (x = y) as -> by congruence. apply Hext.
- apply Forall_forall. intros i Hi%where_true_lt. rewrite length_anomalo in Hi.
  rewrite Hext. by eapply entrada_is_Some.
Qed.

Lemma for_detectar_closed vars df0 df an t :
  (∀ var v, var ∈ vars → anom_label v ≠ var) →
  (∀ var, var ∈ vars →
     ∃ col, columns df0 !! var = Some (NumCol col) ∧ length col = nrows df0) →
  columns df0 !! "Tiempo" = Some t → col_length t = nrows df0 →
  (∀ k, k ∈ "Tiempo" :: vars → columns df !! k = columns df0 !! k) →
  for_ vars detectar (df, an) =
  ([], Returned
         (foldl (λ d var, setitem d (anom_label var)
                            (BoolCol (anomalo (num_col df0 var)))) df vars,
          an ++ concat (anomalias_de df0 <$> vars))).
Proof.
revert df an. induction vars as [|var vars IH]; intros df an Hlab Hcols Ht Htlen Hsame;
  cbn [for_].
- simpl. by rewrite app_nil_r.
- destruct (Hcols var) as (col & Hcol & Hlen); [left|].
  assert (Hcol' : columns df !! var = Some (NumCol col)).
  { rewrite Hsame; [done|]. right. left. }
  assert (Ht' : columns df !! "Tiempo" = Some t).
  { rewrite Hsame; [done|]. left. }
  rewrite (detectar_closed var df an col t Hcol' Ht'); [|lia|intros v; apply Hlab; left].
  assert (Heq : omap (entrada df var) (where_true (anomalo col)) = anomalias_de df0 var).
  { unfold anomalias_de. rewrite (num_col_of_column _ _ _ Hcol). apply list_omap_ext.
    apply Forall2_same_length_lookup. split; [done|].
    intros i x y Hx Hy. assert (x = y) as -> by congruence.
    apply entrada_ext; by rewrite ?Ht', ?Hcol'. }
  rewrite Heq, bind_pair. cbn [log outcome fst snd app].
  rewrite IH.
  + cbn [log outcome fst snd app foldl fmap list_fmap concat].
    by rewrite (num_col_of_column _ _ _ Hcol), <- app_assoc.
  + intros v0 v1 Hv0. apply Hlab. by right.
  + intros v0 Hv0. apply Hcols. by right.
  + done.
  + done.
  + intros k Hk. simpl. rewrite lookup_insert_ne.
    * apply Hsame. apply elem_of_cons in Hk as [->|Hk]; [left|by do 2 right].
    * intros <-. apply elem_of_cons in Hk as [Hk|Hk].
      -- by eapply Tiempo_not_flag.
      -- by eapply (Hlab _ var); [right|].
Qed.

Lemma deteccion_closed df :
  lecturas df →
  deteccion df = ([], Returned (con_banderas df variables, anomalias_todas df)).
Proof.
intros (_ & Hcols & t & Ht & Htlen). unfold deteccion.
rewrite (for_detectar_closed variables df df [] t); try done.
intros var v Hin. by apply variables_not_flag.
Qed.
End closed_forms.

Section report_facts.
Implicit Types (df : DataFrame) (var : string).

Lemma lecturas_simulado_con_pico : lecturas simulado_con_pico.
Proof.
split_and!.
- change (0 < 10)%nat. lia.
- apply Forall_forall. repeat constructor; by eexists.
- by eexists.
Qed.

Lemma entrada_Some_inv df var i a :
  entrada df var i = Some a →
  cell df "Tiempo" i = Some (Fecha a) ∧ cell df var i = Some (Valor a) ∧
  VariableName a = var.
Proof.
unfold entrada. destruct (cell df "Tiempo" i) as [f|]; [|done].
destruct (cell df var i) as [v|]; [|done]. simpl. by intros [= <-].
Qed.

Lemma length_anomalias_de df var :
  lecturas df → var ∈ variables → length (anomalias_de df var) = n_anomalas df var.
Proof.
intros (_ & Hcols & t & Ht & Htlen) Hvar.
destruct (Hcols var Hvar) as (col & Hcol & Hlen).
unfold anomalias_de, n_anomalas. rewrite (num_col_of_column _ _ _ Hcol).
assert (Hall : Forall (λ i, is_Some (entrada df var i)) (where_true (anomalo col))).
{ apply Forall_forall. intros i Hi%where_true_lt. rewrite length_anomalo in Hi.
  eapply entrada_is_Some; [done|done|done|lia]. }
induction Hall as [|i idxs [a Ha] _ IH]; [done|].
cbn [omap list_omap]. rewrite Ha. simpl. by rewrite IH.
Qed.

Lemma length_anomalias_todas df :
  lecturas df →
  length (anomalias_todas df) = sum_list (n_anomalas df <$> variables).
Proof.
intros Hl. unfold anomalias_todas.
assert (Hall : ∀ var, var ∈ variables → var ∈ variables) by done.
revert Hall. generalize variables at 1 3 4. intros vars Hall.
induction vars as [|var vars IH]; [done|].
cbn [fmap list_fmap concat sum_list sum_list_with]. rewrite length_app.
rewrite length_anomalias_de by (done || apply Hall; left).
rewrite IH by (intros v Hv; apply Hall; by right). done.
Qed.

Lemma elem_of_concat {A} (x : A) (ls : list (list A)) :
  x ∈ concat ls → ∃ l, l ∈ ls ∧ x ∈ l.
Proof.
induction ls as [|l ls IH]; simpl; [by intros ?%elem_of_nil|].
intros [Hx|Hx]%elem_of_app.
- exists l. split; [left|done].
- destruct (IH Hx) as (l' & Hl' & Hx'). exists l'. split; [by right|done].
Qed.

Lemma anomalias_todas_elem df a :
  a ∈ anomalias_todas df →
  ∃ i, VariableName a ∈ variables ∧
       anomalo (num_col df (VariableName a)) !! i = Some true ∧
       cell df "Tiempo" i = Some (Fecha a) ∧
       cell df (VariableName a) i = Some (Valor a).
Proof.
unfold anomalias_todas. intros (l & Hl & Ha)%elem_of_concat.
apply list_elem_of_fmap in Hl as (var & -> & Hvar).
unfold anomalias_de in Ha. apply list_elem_of_omap in Ha as (i & Hi & He).
apply entrada_Some_inv in He as (Hf & Hv & <-).
exists i. split_and!; try done. by apply where_true_lookup.
Qed.
End report_facts.

(** X2: on a frame of readings the anomaly loop returns the report in
    closed form: the entries of the variables in the order of [variables],
    each variable's flagged rows in index order.  The report has one entry
    per flagged row, and every entry carries the timestamp and the value of a
    row that is flagged for the entry's variable. *)
Theorem X2_report_lists_flagged_rows (df : DataFrame) :
  lecturas df →
  deteccion df = ([], Returned (con_banderas df variables, anomalias_todas df)) ∧
  length (anomalias_todas df) = sum_list (n_anomalas df <$> variables) ∧
  Forall (λ a, ∃ i, VariableName a ∈ variables ∧
                    anomalo (num_col df (VariableName a)) !! i = Some true ∧
                    cell df "Tiempo" i = Some (Fecha a) ∧
                    cell df (VariableName a) i = Some (Valor a))
         (anomalias_todas df).
Proof.
intros Hl. split; [by apply deteccion_closed|]. split; [by apply length_anomalias_todas|].
apply Forall_forall. intros a Ha. by apply anomalias_todas_elem.
Qed.

Lemma X2_witness :
  lecturas simulado_con_pico ∧
  deteccion simulado_con_pico =
    ([], Returned (con_banderas simulado_con_pico variables,
                   anomalias_todas simulado_con_pico)) ∧
  length (anomalias_todas simulado_con_pico)
    = sum_list (n_anomalas simulado_con_pico <$> variables) ∧
  Forall (λ a, ∃ i, VariableName a ∈ variables ∧
                    anomalo (num_col simulado_con_pico (VariableName a)) !! i = Some true ∧
                    cell simulado_con_pico "Tiempo" i = Some (Fecha a) ∧
                    cell simulado_con_pico (VariableName a) i = Some (Valor a))
         (anomalias_todas simulado_con_pico).
Proof.
split; [apply lecturas_simulado_con_pico|].
apply (X2_report_lists_flagged_rows simulado_con_pico), lecturas_simulado_con_pico.
Defined.

Section report_shown.
Implicit Types (df : DataFrame).

Lemma zip_seq_elem {A} (l : list A) s i b :
  l !! i = Some b → (s + i, b) ∈ zip (seq s (length l)) l.
Proof.
revert s i. induction l as [|x l IH]; intros s i; [done|].
destruct i as [|i]; simpl.
- intros [= ->]. rewrite Nat.add_0_r. left.
- intros Hi. right. replace (s + S i) with (S s + i) by lia. by apply IH.
Qed.

Lemma where_true_elem mask i : mask !! i = Some true → i ∈ where_true mask.
Proof.
intros Hi. unfold where_true, enumerate. apply list_elem_of_omap.
exists (i, true). split; [|done]. by apply (zip_seq_elem mask 0 i true).
Qed.

Lemma sum_list_zero (ns : list nat) : sum_list ns = 0 ↔ Forall (λ n, n = 0) ns.
Proof.
induction ns as [|n ns IH]; simpl; [by split|].
rewrite Forall_cons. rewrite <- IH. lia.
Qed.

Lemma sin_anomalias_iff df :
  lecturas df →
  anomalias_todas df = [] ↔ Forall (λ var, n_anomalas df var = 0) variables.
Proof.
intros Hl. rewrite <- length_zero_iff_nil, (length_anomalias_todas df Hl).
rewrite sum_list_zero, Forall_fmap. done.
Qed.
End report_shown.

(** X3: on a frame of readings the page shows the success message exactly
    when no row of any variable is flagged, and the error with the table of
    the report exactly when some row is. *)
Theorem X3_report_shown_iff_some_row_flagged (df : DataFrame) :
  lecturas df →
  (reporte (anomalias_todas df)
     = ([StSuccess "✅ No se detectaron anomalías"], Returned tt)
   ↔ Forall (λ var, n_anomalas df var = 0) variables) ∧
  (reporte (anomalias_todas df)
     = ([StError "🚨 Se detectaron anomalías en las lecturas";
         StTable (anomalias_todas df)], Returned tt)
   ↔ Exists (λ var, (0 < n_anomalas df var)%nat) variables).
Proof.
intros Hl. pose proof (sin_anomalias_iff df Hl) as Hiff.
assert (Hno : Forall (λ var, n_anomalas df var = 0) variables →
              ¬ Exists (λ var, (0 < n_anomalas df var)%nat) variables).
{ intros Hall Hex. apply Exists_exists in Hex as (var & Hvar & Hpos).
  rewrite Forall_forall in Hall. specialize (Hall var Hvar). lia. }
destruct (anomalias_todas df) as [|a an] eqn:Han.
- assert (Hall : Forall (λ var, n_anomalas df var = 0) variables) by by apply Hiff.
  split; [done|]. split; [discriminate|]. intros Hex. by destruct (Hno Hall).
- assert (Hnot : ¬ Forall (λ var, n_anomalas df var = 0) variables).
  { intros Hall. by apply Hiff in Hall. }
  split.
  + split; [discriminate|]. intros Hall. by destruct Hnot.
  + split; [|done]. intros _.
    apply not_Forall_Exists in Hnot; [|apply _].
    eapply Exists_impl; [exact Hnot|]. simpl. lia.
Qed.

Lemma X3_witness :
  lecturas simulado_con_pico ∧
  Exists (λ var, (0 < n_anomalas simulado_con_pico var)%nat) variables ∧
  reporte (anomalias_todas simulado_con_pico)
    = ([StError "🚨 Se detectaron anomalías en las lecturas";
        StTable (anomalias_todas simulado_con_pico)], Returned tt).
Proof.
assert (Hex : Exists (λ var, (0 < n_anomalas simulado_con_pico var)%nat) variables).
{ apply Exists_exists. exists "voltaje". split; [do 4 right; left|].
  unfold n_anomalas. change (num_col simulado_con_pico "voltaje") with columna_con_pico.
  destruct (where_true (anomalo columna_con_pico)) as [|i l] eqn:Hw; [|simpl; lia].
  assert (Hin : 9%nat ∈ where_true (anomalo columna_con_pico)).
  { apply where_true_elem. apply pico_flagged. }
  rewrite Hw in Hin. by apply elem_of_nil in Hin. }
split; [apply lecturas_simulado_con_pico|]. split; [exact Hex|].
apply (X3_report_shown_iff_some_row_flagged simulado_con_pico);
  [apply lecturas_simulado_con_pico|exact Hex].
Defined.

Section summary_statistics.
Local Open Scope R_scope.
Implicit Types (col xs : list R) (x : R).

Lemma foldr_Rmin_spec x xs :
  foldr Rmin x xs ∈ x :: xs ∧ Forall (λ y, foldr Rmin x xs <= y) (x :: xs).
Proof.
induction xs as [|z xs [IHin IHle]]; cbn [foldr].
- split; [left|]. constructor; [lra|constructor].
- apply Forall_cons in IHle as [Hx Hxs].
  destruct (Rle_dec z (foldr Rmin x xs)) as [Hle|Hgt].
  + rewrite Rmin_left by done. split; [right; left|].
    constructor; [lra|]. constructor; [lra|].
    eapply Forall_impl; [exact Hxs|]. simpl. intros; lra.
  + rewrite Rmin_right by lra. split.
    * apply elem_of_cons in IHin as [->|Hin]; [left|do 2 right; done].
    * constructor; [done|]. constructor; [lra|done].
Qed.

Lemma foldr_Rmax_spec x xs :
  foldr Rmax x xs ∈ x :: xs ∧ Forall (λ y, y <= foldr Rmax x xs) (x :: xs).
Proof.
induction xs as [|z xs [IHin IHle]]; cbn [foldr].
- split; [left|]. constructor; [lra|constructor].
- apply Forall_cons in IHle as [Hx Hxs].
  destruct (Rle_dec z (foldr Rmax x xs)) as [Hle|Hgt].
  + rewrite Rmax_right by done. split.
    * apply elem_of_cons in IHin as [->|Hin]; [left|do 2 right; done].
    * constructor; [done|]. constructor; [lra|done].
  + rewrite Rmax_left by lra. split; [right; left|].
    constructor; [lra|]. constructor; [lra|].
    eapply Forall_impl; [exact Hxs|]. simpl. intros; lra.
Qed.

(** The extremes of a metric, for a column that is not empty. *)
Lemma extremes_of_column col :
  col ≠ [] →
  ∃ mi ma,
    col_min col = Some mi ∧ col_max col = Some ma ∧
    mi ∈ col ∧ ma ∈ col ∧ Forall (λ y, mi <= y <= ma) col.
Proof.
destruct col as [|x xs]; [done|]. intros _.
destruct (foldr_Rmin_spec x xs) as [Hmin_in Hmin].
destruct (foldr_Rmax_spec x xs) as [Hmax_in Hmax].
exists (foldr Rmin x xs), (foldr Rmax x xs). split_and!; try done.
apply Forall_forall. intros y Hy. rewrite Forall_forall in Hmin, Hmax.
split; [by apply Hmin|by apply Hmax].
Qed.
End summary_statistics.

(** X6: on a frame of readings the statistics loop returns after rendering
    exactly five metrics, one per variable in the order of [variables], each
    in the slot of its position and under the capitalised label of its
    variable; the minimum and the maximum a metric shows are readings of the
    variable's column, and every reading of the column lies between them. *)
Theorem X6_metrics_show_the_extremes_of_the_column (df : DataFrame) :
  lecturas df →
  ∃ evs,
    estadisticas df = (evs, Returned tt) ∧
    Forall2 (λ p ev, ∃ col prom mi ma,
               columns df !! p.2 = Some (NumCol col) ∧
               ev = StMetric p.1 (capitalize p.2) prom (Some mi) (Some ma) ∧
               mi ∈ col ∧ ma ∈ col ∧ Forall (λ y, (mi <= y <= ma)%R) col)
            (zip [0; 1; 2; 3; 4] variables) evs.
Proof.
intros (Hn & Hcols & _). exists (metricas df). split.
- apply estadisticas_metricas. intros var Hvar.
  destruct (Hcols var Hvar) as (col & Hcol & _). by exists col.
- unfold metricas. apply Forall2_fmap_r, Forall_Forall2_diag, Forall_forall.
  intros [i var] Hp.
  assert (Hvar : var ∈ variables) by (by apply elem_of_zip_r in Hp).
  destruct (Hcols var Hvar) as (col & Hcol & Hlen).
  destruct (extremes_of_column col) as (mi & ma & Hmi & Hma & Hin1 & Hin2 & Hall).
  { intros ->. simpl in Hlen. lia. }
  exists col, (mean col), mi, ma. split; [done|]. split; [|done].
  unfold metrica. cbn [fst snd]. rewrite (num_col_of_column _ _ _ Hcol).
  by rewrite Hmi, Hma.
Qed.

Lemma X6_witness :
  lecturas tiempo_simulado ∧
  ∃ evs,
    estadisticas tiempo_simulado = (evs, Returned tt) ∧
    Forall2 (λ p ev, ∃ col prom mi ma,
               columns tiempo_simulado !! p.2 = Some (NumCol col) ∧
               ev = StMetric p.1 (capitalize p.2) prom (Some mi) (Some ma) ∧
               mi ∈ col ∧ ma ∈ col ∧ Forall (λ y, (mi <= y <= ma)%R) col)
            (zip [0; 1; 2; 3; 4] variables) evs.
Proof.
split; [apply lecturas_tiempo_simulado|].
apply (X6_metrics_show_the_extremes_of_the_column tiempo_simulado),
  lecturas_tiempo_simulado.
Defined.

Section missing_columns.
Implicit Types (df : DataFrame) (var v : string) (an : list Anomalia).

Lemma getitem_missing df k : columns df !! k = None → getitem df k = raise (KeyError k).
Proof. intros H. unfold getitem. by rewrite H. Qed.

(** The statistics loop up to the first variable without a column. *)
Lemma estadisticas_prefix df (o : nat) pre v post :
  Forall (λ var, ∃ col, columns df !! var = Some (NumCol col)) pre →
  columns df !! v = None →
  for_ (zip (seq o (length (pre ++ v :: post))) (pre ++ v :: post))
       (λ '(i, var) _,
          col ← getitem df var ≫= numeric;
          let prom := mean col in
          let minimo := col_min col in
          let maximo := col_max col in
          emit (StMetric i (capitalize var) prom minimo maximo)) tt
  = (metrica df <$> zip (seq o (length pre)) pre, Raised (KeyError v)).
Proof.
intros Hpre Hv. revert o. induction Hpre as [|var pre [col Hcol] _ IH]; intros o.
- cbn [app length seq zip zip_with for_]. by rewrite (getitem_missing _ _ Hv).
- cbn [app length seq zip zip_with for_].
  rewrite (series_of_column _ _ _ Hcol), bind_ret, bind_emit.
  specialize (IH (S o)). cbn [length] in IH. rewrite IH.
  cbn [log outcome fst snd fmap list_fmap]. do 2 f_equal.
  unfold metrica, num_col. cbn [fst snd]. by rewrite Hcol.
Qed.

Lemma estadisticas_missing df pre v post :
  variables = pre ++ v :: post →
  Forall (λ var, ∃ col, columns df !! var = Some (NumCol col)) pre →
  columns df !! v = None →
  estadisticas df = (metrica df <$> enumerate pre, Raised (KeyError v)).
Proof.
intros Hvars Hpre Hv. unfold estadisticas, enumerate. rewrite Hvars.
by apply estadisticas_prefix.
Qed.

Lemma row_get_missing df i k :
  columns df !! k = None → row_get df i k = raise (KeyError k).
Proof. intros H. unfold row_get. by rewrite (getitem_missing _ _ H). Qed.

Lemma registrar_sin_tiempo df var i an :
  columns df !! "Tiempo" = None → registrar df var i an = raise (KeyError "Tiempo").
Proof. intros H. unfold registrar. by rewrite (row_get_missing _ _ _ H). Qed.

Lemma detectar_sin_tiempo var df an col :
  columns df !! var = Some (NumCol col) → columns df !! "Tiempo" = None →
  detectar var (df, an) =
  ([], if decide (where_true (anomalo col) = [])
       then Returned (setitem df (anom_label var) (BoolCol (anomalo col)), an)
       else Raised (KeyError "Tiempo")).
Proof.
intros Hcol Ht. unfold detectar.
rewrite (series_of_column _ _ _ Hcol), bind_ret.
destruct (where_true (anomalo col)) as [|i idxs] eqn:Hw.
- rewrite decide_True by done. cbn [for_]. by rewrite bind_ret.
- rewrite decide_False by done. cbn [for_].
  rewrite registrar_sin_tiempo; [done|].
  simpl. by rewrite lookup_insert_ne by apply Tiempo_not_flag.
Qed.
End missing_columns.

(** X7: if the column of a variable is missing from the frame while the
    variables before it are numeric columns, the run shows the table and the
    metrics of the variables before it and then ends in an uncaught
    [KeyError] naming the missing variable: no anomaly report, prediction or
    footer is rendered. *)
Theorem X7_missing_variable_column_raises (df : DataFrame)
    (pre : list string) (v : string) (post : list string) :
  variables = pre ++ v :: post →
  Forall (λ var, ∃ col, columns (rename df "_time" "Tiempo") !! var = Some (NumCol col))
         pre →
  columns (rename df "_time" "Tiempo") !! v = None →
  render df =
    ([StSubheader "📋 Datos obtenidos";
      StDataframe (rename df "_time" "Tiempo");
      StSubheader "📈 Estadísticas Generales"]
     ++ (metrica (rename df "_time" "Tiempo") <$> enumerate pre),
     Raised (KeyError v)).
Proof.
intros Hvars Hpre Hv. unfold render.
by rewrite (estadisticas_missing _ pre v post Hvars Hpre Hv).
Qed.

Lemma X7_witness :
  variables = ["temperatura"; "humedad"; "vibracion"; "corriente"] ++ "voltaje" :: [] ∧
  columns (rename sin_voltaje "_time" "Tiempo") !! "voltaje" = None ∧
  render sin_voltaje =
    ([StSubheader "📋 Datos obtenidos";
      StDataframe (rename sin_voltaje "_time" "Tiempo");
      StSubheader "📈 Estadísticas Generales"]
     ++ (metrica (rename sin_voltaje "_time" "Tiempo")
           <$> enumerate ["temperatura"; "humedad"; "vibracion"; "corriente"]),
     Raised (KeyError "voltaje")).
Proof.
split; [reflexivity|]. split; [reflexivity|].
apply (X7_missing_variable_column_raises sin_voltaje
         ["temperatura"; "humedad"; "vibracion"; "corriente"] "voltaje" []).
- reflexivity.
- repeat constructor; by eexists.
- reflexivity.
Defined.

(** X8: on a frame without a timestamp column, one turn of the anomaly loop
    completes when the variable has no flagged row, and raises
    [KeyError: 'Tiempo'] as soon as it has one. *)
Theorem X8_missing_timestamps_raise_on_first_anomaly (var : string) (df : DataFrame)
    (an : list Anomalia) (col : list R) :
  columns df !! var = Some (NumCol col) → columns df !! "Tiempo" = None →
  detectar var (df, an) =
  ([], if decide (where_true (anomalo col) = [])
       then Returned (setitem df (anom_label var) (BoolCol (anomalo col)), an)
       else Raised (KeyError "Tiempo")).
Proof. apply detectar_sin_tiempo. Qed.

Lemma X8_witness :
  columns sin_tiempo !! "voltaje" = Some (NumCol columna_con_pico) ∧
  columns sin_tiempo !! "Tiempo" = None ∧
  where_true (anomalo columna_con_pico) ≠ [] ∧
  detectar "voltaje" (sin_tiempo, []) =
  ([], if decide (where_true (anomalo columna_con_pico) = [])
       then Returned (setitem sin_tiempo (anom_label "voltaje")
                        (BoolCol (anomalo columna_con_pico)), [])
       else Raised (KeyError "Tiempo")).
Proof.
split; [reflexivity|]. split; [reflexivity|]. split.
- intros H. pose proof (where_true_elem _ _ pico_flagged) as Hin.
  rewrite H in Hin. by apply elem_of_nil in Hin.
- apply (X8_missing_timestamps_raise_on_first_anomaly "voltaje" sin_tiempo []
           columna_con_pico); reflexivity.
Defined.

Section control_flow.
Implicit Types (df : DataFrame) (w : World).

Lemma never_stops_bind {A B} (m : Script A) (k : A → Script B) :
  never_stops m → (∀ a, never_stops (k a)) → never_stops (m ≫= k).
Proof.
unfold never_stops. intros Hm Hk. rewrite outcome_bind.
destruct (outcome m); [apply Hk|done|done].
Qed.

Lemma never_stops_for {A S} (xs : list A) (body : A → S → Script S) s :
  (∀ x s', never_stops (body x s')) → never_stops (for_ xs body s).
Proof.
intros Hb. revert s. induction xs as [|x xs IH]; intros s; cbn [for_]; [done|].
by apply never_stops_bind.
Qed.

Lemma never_stops_emit ev : never_stops (emit ev).
Proof. done. Qed.

Lemma never_stops_series df k : never_stops (getitem df k ≫= numeric).
Proof.
apply never_stops_bind.
- unfold getitem. by destruct (columns df !! k).
- intros c. by destruct c.
Qed.

Lemma never_stops_row_get df i k : never_stops (row_get df i k).
Proof.
unfold row_get. apply never_stops_bind.
- unfold getitem. by destruct (columns df !! k).
- intros c. by destruct (cell_at c i).
Qed.

Lemma never_stops_detectar var s : never_stops (detectar var s).
Proof.
destruct s as [df an]. unfold detectar.
apply never_stops_bind; [apply never_stops_series|]. intros col.
apply never_stops_bind; [|done].
apply never_stops_for. intros i an'. unfold registrar.
apply never_stops_bind; [apply never_stops_row_get|]. intros f.
apply never_stops_bind; [apply never_stops_row_get|]. done.
Qed.

Lemma never_stops_predecir df var ps : never_stops (predecir df var ps).
Proof.
unfold predecir. apply never_stops_bind; [apply never_stops_series|]. intros y.
by destruct (LinearRegression.fit (range (len df)) y).
Qed.

(** Below the query nothing calls [st.stop()]. *)
Lemma render_never_stops df : never_stops (render df).
Proof.
unfold render.
repeat (apply never_stops_bind; [apply never_stops_emit|intros []]).
apply never_stops_bind.
{ apply never_stops_for. intros [i var] [].
  apply never_stops_bind; [apply never_stops_series|]. intros col. done. }
intros [].
apply never_stops_bind; [apply never_stops_emit|intros []].
apply never_stops_bind.
{ apply never_stops_for. intros. apply never_stops_detectar. }
intros [df' an].
apply never_stops_bind; [by destruct an|intros []].
apply never_stops_bind; [apply never_stops_emit|intros []].
apply never_stops_bind.
{ apply never_stops_for. intros. apply never_stops_predecir. }
intros ps.
apply never_stops_bind; [apply never_stops_emit|intros []].
apply never_stops_bind.
{ apply never_stops_for. intros [var pred] []. done. }
intros [].
apply never_stops_bind; [apply never_stops_emit|intros []].
done.
Qed.

(** Below the query the script renders page elements only. *)
Lemma render_page_events df : Forall (λ ev, page_event ev = true) (log (render df)).
Proof.
unfold render.
repeat (apply Forall_log_bind; [by repeat constructor|intros []]).
apply Forall_log_bind.
{ apply Forall_log_for. intros [i var] [].
  apply Forall_log_bind; [by rewrite log_series|]. intros col.
  by repeat constructor. }
intros [].
apply Forall_log_bind; [by repeat constructor|intros []].
apply Forall_log_bind; [by rewrite log_deteccion|]. intros [df' an].
apply Forall_log_bind.
{ destruct an; by repeat constructor. }
intros [].
apply Forall_log_bind; [by repeat constructor|intros []].
apply Forall_log_bind; [by rewrite log_prediccion|]. intros ps.
apply Forall_log_bind; [by repeat constructor|intros []].
apply Forall_log_bind.
{ apply Forall_log_for. intros [var pred] []. by repeat constructor. }
intros [].
apply Forall_log_bind; [by repeat constructor|intros []].
by repeat constructor.
Qed.

Lemma render_no_warning df s : StWarning s ∉ log (render df).
Proof.
intros Hin. pose proof (render_page_events df) as Hall.
rewrite Forall_forall in Hall. by specialize (Hall _ Hin).
Qed.
End control_flow.

(** X11: a run ends in [st.stop()] exactly when the connection failed or
    the query raised; whatever the query returns, nothing below the query
    stops the run. *)
Theorem X11_stopped_iff_connection_or_query_failed (w : World) :
  outcome (main w) = Stopped ↔
  (∃ e, connect w = inl e) ∨
  (∃ api e, connect w = inr api ∧ api (sent w) = inl e).
Proof.
destruct (connect w) as [e|api] eqn:Hc.
- rewrite (main_connection_fails w e Hc). split; [|done]. intros _. left. by exists e.
- destruct (api (sent w)) as [e|tables] eqn:Hq.
  + rewrite (main_query_raises w api e Hc Hq). split; [|done]. intros _. right.
    by exists api, e.
  + rewrite (main_rows w api tables Hc Hq). split.
    * intros Hstop. by destruct (render_never_stops _ Hstop).
    * intros [[e He]|(api' & e & Hapi & He)]; [done|].
      assert (api' = api) as -> by congruence. congruence.
Qed.

(** X12: the warning that announces the sample data is shown exactly when
    the connection succeeded and the query returned a frame without rows. *)
Theorem X12_warning_iff_empty_result (w : World) :
  StWarning "⚠️ No se encontraron datos en InfluxDB. Se usarán datos simulados."
    ∈ log (main w) ↔
  ∃ api tables, connect w = inr api ∧ api (sent w) = inr tables ∧ len tables = 0.
Proof.
destruct (connect w) as [e|api] eqn:Hc.
- rewrite (main_connection_fails w e Hc). split.
  + unfold log, fst, header. cbn. intros Hin.
    repeat (apply elem_of_cons in Hin as [Hin|Hin]; [discriminate Hin|]).
    by apply elem_of_nil in Hin.
  + by intros (? & ? & ? & _).
- destruct (api (sent w)) as [e|tables] eqn:Hq.
  + rewrite (main_query_raises w api e Hc Hq). split.
    * unfold log, fst, header. cbn. intros Hin.
      repeat (apply elem_of_cons in Hin as [Hin|Hin]; [discriminate Hin|]).
      by apply elem_of_nil in Hin.
    * intros (api' & t & Hapi & Ht & _). assert (api' = api) as -> by congruence.
      congruence.
  + rewrite (main_rows w api tables Hc Hq). unfold log at 1, fst.
    destruct (decide (len tables = 0)) as [H0|H0].
    * split; [intros _; by exists api, tables|]. intros _.
      apply elem_of_app. right. apply elem_of_app. right. left.
    * split; [|intros (api' & t & Hapi & Ht & Hz);
                assert (api' = api) as -> by congruence; congruence].
      intros Hin. apply elem_of_app in Hin as [Hin|Hin].
      { unfold log, fst, header in Hin. cbn in Hin.
        repeat (apply elem_of_cons in Hin as [Hin|Hin]; [discriminate Hin|]).
        by apply elem_of_nil in Hin. }
      apply elem_of_app in Hin as [Hin|Hin].
      { repeat (apply elem_of_cons in Hin as [Hin|Hin]; [discriminate Hin|]).
        by apply elem_of_nil in Hin. }
      by apply render_no_warning in Hin.
Qed.
